(** * The discount-code resource of the commercetools provider

    A shallow embedding of [commercetools/resource_discount_code.go]: the four
    lifecycle handlers of the resource, the construction of the update
    actions, and the two cart-discount marshalling helpers.

    The handlers talk to the remote platform and mutate the resource data they
    are handed.  Both are explicit here: a handler is a function on a [Run]
    (resource data, the remote calls issued so far with their answers, the
    log), the remote platform is an arbitrary function from the history and a
    call to an answer, and a nil dereference ends a handler with [Panicked]. *)

From stdpp Require Import base gmap strings list.
From Stdlib Require Import ZArith Lia.

(** ** Values of the platform SDK *)

(** [platform.LocalizedString] is a Go map from locale to text. *)
Abbreviation LocalizedString := (gmap string string).

(** [time.Time], as an offset from the epoch. *)
Definition Time : Type := Z.

(** [time.Duration] counts nanoseconds. *)
Definition Duration : Type := Z.
Definition Minute : Duration := 60000000000%Z.

Record CartDiscountResourceIdentifier := {
  ID : option string;
  Key : option string;
}.

Record CartDiscountReference := { RefID : string }.

Record DiscountCode := {
  dcID : string;
  dcVersion : Z;
  dcCode : string;
  dcName : option LocalizedString;
  dcDescription : option LocalizedString;
  dcCartPredicate : option string;
  dcCartDiscounts : list CartDiscountReference;
  dcGroups : list string;
  dcIsActive : bool;
  dcValidFrom : option Time;
  dcValidUntil : option Time;
  dcMaxApplicationsPerCustomer : option Z;
  dcMaxApplications : option Z;
}.

Record DiscountCodeDraft := {
  Name : option LocalizedString;
  Description : option LocalizedString;
  Code : string;
  CartPredicate : option string;
  IsActive : option bool;
  MaxApplicationsPerCustomer : option Z;
  MaxApplications : option Z;
  Groups : list string;
  CartDiscounts : list CartDiscountResourceIdentifier;
  ValidFrom : option Time;
  ValidUntil : option Time;
}.

(** The update actions the handler emits; a nil pointer field is [None]. *)
Inductive DiscountCodeUpdateAction :=
| DiscountCodeSetNameAction (v : option LocalizedString)
| DiscountCodeSetDescriptionAction (v : option LocalizedString)
| DiscountCodeSetCartPredicateAction (v : option string)
| DiscountCodeSetMaxApplicationsAction (v : option Z)
| DiscountCodeSetMaxApplicationsPerCustomerAction (v : option Z)
| DiscountCodeChangeCartDiscountsAction (v : list CartDiscountResourceIdentifier)
| DiscountCodeChangeGroupsAction (v : list string)
| DiscountCodeChangeIsActiveAction (v : bool)
| DiscountCodeSetValidFromAction (v : option Time)
| DiscountCodeSetValidUntilAction (v : option Time).

Record DiscountCodeUpdate := {
  Version : Z;
  Actions : list DiscountCodeUpdateAction;
}.

(** Go's [error] interface, with the one dynamic type the handlers test for. *)
Record ErrorResponse := { StatusCode : Z; Message : string }.

Inductive error :=
| PlatformError (e : ErrorResponse)
| GoError (msg : string).

(** The [Error()] method. *)
Definition Error (e : error) : string :=
  match e with
  | PlatformError r => Message r
  | GoError msg => msg
  end.

(** The type assertion [err.(platform.ErrorResponse)]. *)
Definition asErrorResponse (e : error) : option ErrorResponse :=
  match e with
  | PlatformError r => Some r
  | GoError _ => None
  end.

(** ** Diagnostics of the plugin framework *)

Inductive Severity := SeverityError | SeverityWarning.

Record Diagnostic := { severity : Severity; Summary : string }.

Definition Diagnostics : Type := list Diagnostic.

(** [diag.FromErr] on a non-nil error and [diag.Errorf]. *)
Definition FromErr (e : error) : Diagnostics :=
  [ {| severity := SeverityError; Summary := Error e |} ].

Definition Errorf (msg : string) : Diagnostics :=
  [ {| severity := SeverityError; Summary := msg |} ].

(** [resource.RetryError]. *)
Record RetryError := { Err : error; Retryable : bool }.

(** ** Resource data

    The schema's fields, once as the prior state and once as the planned
    values: [Get] reads the planned value and writes by [Set] go there,
    [HasChange] compares the two. *)

Record Fields := {
  name : LocalizedString;
  description : LocalizedString;
  code : string;
  valid_from : string;
  valid_until : string;
  is_active : bool;
  predicate : string;
  max_applications_per_customer : Z;
  max_applications : Z;
  groups : list string;
  cart_discounts : list string;
  version : Z;
}.

Record ResourceData := {
  prior : Fields;
  planned : Fields;
  Id : string;
}.

Definition Get {A} (key : Fields → A) (d : ResourceData) : A := key (planned d).

Definition HasChange {A} `{EqDecision A} (key : Fields → A) (d : ResourceData) : bool :=
  bool_decide (key (prior d) ≠ key (planned d)).

Definition SetId (v : string) (d : ResourceData) : ResourceData :=
  {| prior := prior d; planned := planned d; Id := v |}.

Definition SetFields (f : Fields → Fields) (d : ResourceData) : ResourceData :=
  {| prior := prior d; planned := f (planned d); Id := Id d |}.

(** ** The remote platform and the handler monad *)

(** The four request shapes the handlers build. *)
Inductive Call :=
| GetById (id : string)
| PostDraft (draft : DiscountCodeDraft)
| PostUpdate (id : string) (input : DiscountCodeUpdate)
| DeleteById (id : string) (ver : Z) (dataErasure : bool).

(** What [Execute] returns: a result pointer and an error, either may be nil. *)
Definition Response : Type := option DiscountCode * option error.

(** The client: the platform's answer to a call after a history of calls. *)
Definition Client : Type := list (Call * Response) → Call → Response.

Record Run := {
  data : ResourceData;
  calls : list (Call * Response);
  logs : list string;
}.

(** A step of a handler body goes on with a value, leaves the handler with
    its diagnostics ([return] in the source), or panics. *)
Inductive Outcome (A : Type) :=
| Next (a : A)
| Return (diags : Diagnostics)
| Panicked.
Arguments Next {A} a.
Arguments Return {A} diags.
Arguments Panicked {A}.

Definition M (A : Type) : Type := Run → Outcome A * Run.

#[global] Instance M_ret : MRet M := λ A a r, (Next a, r).

#[global] Instance M_bind : MBind M := λ A B k c r,
  match c r with
  | (Next a, r') => k a r'
  | (Return diags, r') => (Return diags, r')
  | (Panicked, r') => (Panicked, r')
  end.

Definition return_ {A} (diags : Diagnostics) : M A := λ r, (Return diags, r).

Definition Execute (m : Client) (c : Call) : M Response := λ r,
  let resp := m (calls r) c in
  (Next resp,
   {| data := data r; calls := calls r ++ [(c, resp)]; logs := logs r |}).

Definition log_Print (line : string) : M unit := λ r,
  (Next tt, {| data := data r; calls := calls r; logs := logs r ++ [line] |}).

Definition getData : M ResourceData := λ r, (Next (data r), r).

Definition modifyData (f : ResourceData → ResourceData) : M unit := λ r,
  (Next tt, {| data := f (data r); calls := calls r; logs := logs r |}).

(** Field access through a result pointer: nil panics. *)
Definition deref {A} (p : option A) : M A := λ r,
  match p with
  | Some a => (Next a, r)
  | None => (Panicked, r)
  end.

(** What a handler gives back to the framework. *)
Inductive Result :=
| Diags (diags : Diagnostics)
| Panic.

Definition Handler : Type := Run → Result * Run.

Definition handler (body : M Diagnostics) : Handler := λ r,
  match body r with
  | (Next diags, r') => (Diags diags, r')
  | (Return diags, r') => (Diags diags, r')
  | (Panicked, r') => (Panic, r')
  end.

(** [return h(ctx, d, m)]: the body ends with what handler [h] returns. *)
Definition return_call {A} (h : Handler) : M A := λ r,
  match h r with
  | (Diags diags, r') => (Return diags, r')
  | (Panic, r') => (Panicked, r')
  end.

(** ** Helpers of the package that live in other files

    The discount-code file calls these; they are taken as given, so every
    result below holds for any behaviour they have.  [unmarshallTime] returns
    a time or an error; [handleCommercetoolsError] sorts an error into
    retryable or not. *)
Class Helpers := {
  unmarshallLocalizedString : LocalizedString → LocalizedString;
  stringRef : string → option string;
  boolRef : bool → option bool;
  intRef : Z → option Z;
  expandStringArray : list string → list string;
  unmarshallTime : string → Time + error;
  marshallTime : option Time → string;
  handleCommercetoolsError : error → RetryError;
  stringFormatObject : DiscountCode → string;
  stringFormatActions : list DiscountCodeUpdateAction → string;
  stringFormatErrorExtras : ErrorResponse → string;
}.

(** The clock is not modelled: a retry window of a given length leaves room
    for the first attempt and [furtherAttempts] more. *)
Class RetryWindow := { furtherAttempts : Duration → nat }.

(** [resource.RetryContext]: run [f] until it succeeds, fails for good, or
    the window is used up; the last error is the result.  [L] is the variable
    the closure captures and assigns. *)
Fixpoint retry {L} (n : nat) (f : L → M (L * option RetryError)) (l : L)
  : M (L * option error) :=
  p ← f l;
  match p.2 with
  | None => mret (p.1, None)
  | Some rerr =>
      if Retryable rerr then
        match n with
        | O => mret (p.1, Some (Err rerr))
        | S n' => retry n' f p.1
        end
      else mret (p.1, Some (Err rerr))
  end.

Definition RetryContext {window : RetryWindow} {L} (timeout : Duration)
    (f : L → M (L * option RetryError)) (l : L) : M (L * option error) :=
  retry (furtherAttempts timeout) f l.

Definition newline : string := String (Ascii.ascii_of_nat 10) EmptyString.

Section DiscountCode.
Context {helpers : Helpers} {window : RetryWindow}.

(** *** Marshalling helpers (lines 329-350) *)

Definition unmarshallDiscountCodeGroups (d : ResourceData) : list string :=
  expandStringArray (Get groups d).

(** The loop [for i := range discounts { cartDiscounts[i] = ... }] over a
    slice made with the length of [discounts]. *)
Definition unmarshallDiscountCodeCartDiscounts (d : ResourceData)
  : list CartDiscountResourceIdentifier :=
  let discounts := Get cart_discounts d in
  let cartDiscounts :=
    replicate (length discounts) {| ID := None; Key := None |} in
  foldl (λ cartDiscounts i,
           match discounts !! i with
           | Some id => <[i := {| ID := Some id; Key := None |}]> cartDiscounts
           | None => cartDiscounts
           end)
        cartDiscounts (seq 0 (length discounts)).

Definition marshallDiscountCodeCartDiscounts (values : list CartDiscountReference)
  : list string :=
  let result := replicate (length values) EmptyString in
  foldl (λ result i,
           match values !! i with
           | Some v => <[i := RefID v]> result
           | None => result
           end)
        result (seq 0 (length values)).

(** *** Read (lines 155-194) *)

(** The twelve [d.Set] calls of the found branch; a nil pointer sets the
    zero value. *)
Definition setFromDiscountCode (discountCode : DiscountCode) (f : Fields) : Fields :=
  {| version := dcVersion discountCode;
     code := dcCode discountCode;
     name := default ∅ (dcName discountCode);
     description := default ∅ (dcDescription discountCode);
     predicate := default EmptyString (dcCartPredicate discountCode);
     cart_discounts := marshallDiscountCodeCartDiscounts (dcCartDiscounts discountCode);
     groups := dcGroups discountCode;
     is_active := dcIsActive discountCode;
     valid_from := marshallTime (dcValidFrom discountCode);
     valid_until := marshallTime (dcValidUntil discountCode);
     max_applications_per_customer := default 0%Z (dcMaxApplicationsPerCustomer discountCode);
     max_applications := default 0%Z (dcMaxApplications discountCode) |}.

Definition resourceDiscountCodeRead (m : Client) : Handler := handler (
  d ← getData;
  log_Print ("[DEBUG] Reading discount code from commercetools, with discount code id: " +:+ Id d);;
  resp ← Execute m (GetById (Id d));
  let discountCode := resp.1 in
  match resp.2 with
  | Some err =>
      match asErrorResponse err with
      | Some ctErr =>
          if bool_decide (StatusCode ctErr = 404%Z)
          then modifyData (SetId EmptyString);; return_ []
          else mret tt
      | None => mret tt
      end;;
      return_ (FromErr err)
  | None =>
      match discountCode with
      | None =>
          log_Print "[DEBUG] No discount code found";;
          modifyData (SetId EmptyString)
      | Some discountCode =>
          log_Print "[DEBUG] Found following discount code:";;
          log_Print (stringFormatObject discountCode);;
          modifyData (SetFields (setFromDiscountCode discountCode))
      end;;
      mret []
  end).

(** *** Delete (lines 317-327) *)

Definition resourceDiscountCodeDelete (m : Client) : Handler := handler (
  d ← getData;
  let version := Get version d in
  resp ← Execute m (DeleteById (Id d) version true);
  match resp.2 with
  | Some err =>
      log_Print ("[ERROR] Error during deleting discount code resource " +:+ Error err);;
      return_ []
  | None => mret tt
  end;;
  mret []).

(** *** Update (lines 196-315)

    Lines 208-300 are ten blocks, one per field, each guarded by
    [d.HasChange] and appending to [input.Actions].  The first eight cannot
    fail; the two validity blocks return from the handler when the time does
    not parse. *)

Definition changedName (d : ResourceData) (actions : list DiscountCodeUpdateAction) :=
  if HasChange name d then
    let newName := unmarshallLocalizedString (Get name d) in
    actions ++ [DiscountCodeSetNameAction (Some newName)]
  else actions.

Definition changedDescription (d : ResourceData) (actions : list DiscountCodeUpdateAction) :=
  if HasChange description d then
    let newDescription := unmarshallLocalizedString (Get description d) in
    actions ++ [DiscountCodeSetDescriptionAction (Some newDescription)]
  else actions.

Definition changedPredicate (d : ResourceData) (actions : list DiscountCodeUpdateAction) :=
  if HasChange predicate d then
    let newPredicate := Get predicate d in
    actions ++ [DiscountCodeSetCartPredicateAction (Some newPredicate)]
  else actions.

Definition changedMaxApplications (d : ResourceData) (actions : list DiscountCodeUpdateAction) :=
  if HasChange max_applications d then
    let newMaxApplications := Get max_applications d in
    actions ++ [DiscountCodeSetMaxApplicationsAction (Some newMaxApplications)]
  else actions.

Definition changedMaxApplicationsPerCustomer (d : ResourceData)
    (actions : list DiscountCodeUpdateAction) :=
  if HasChange max_applications_per_customer d then
    let newMaxApplications := Get max_applications_per_customer d in
    actions ++ [DiscountCodeSetMaxApplicationsPerCustomerAction (Some newMaxApplications)]
  else actions.

Definition changedCartDiscounts (d : ResourceData) (actions : list DiscountCodeUpdateAction) :=
  if HasChange cart_discounts d then
    let newCartDiscounts := unmarshallDiscountCodeCartDiscounts d in
    actions ++ [DiscountCodeChangeCartDiscountsAction newCartDiscounts]
  else actions.

Definition changedGroups (d : ResourceData) (actions : list DiscountCodeUpdateAction) :=
  if HasChange groups d then
    let newGroups := unmarshallDiscountCodeGroups d in
    if bool_decide (0 < length newGroups)
    then actions ++ [DiscountCodeChangeGroupsAction newGroups]
    else actions ++ [DiscountCodeChangeGroupsAction []]
  else actions.

Definition changedIsActive (d : ResourceData) (actions : list DiscountCodeUpdateAction) :=
  if HasChange is_active d then
    let newIsActive := Get is_active d in
    actions ++ [DiscountCodeChangeIsActiveAction newIsActive]
  else actions.

Definition changedValidFrom (d : ResourceData) (actions : list DiscountCodeUpdateAction)
  : M (list DiscountCodeUpdateAction) :=
  if HasChange valid_from d then
    let val := Get valid_from d in
    if bool_decide (0 < String.length val) then
      match unmarshallTime (Get valid_from d) with
      | inr err => return_ (FromErr err)
      | inl newValidFrom =>
          mret (actions ++ [DiscountCodeSetValidFromAction (Some newValidFrom)])
      end
    else mret (actions ++ [DiscountCodeSetValidFromAction None])
  else mret actions.

Definition changedValidUntil (d : ResourceData) (actions : list DiscountCodeUpdateAction)
  : M (list DiscountCodeUpdateAction) :=
  if HasChange valid_until d then
    let val := Get valid_until d in
    if bool_decide (0 < String.length val) then
      match unmarshallTime (Get valid_until d) with
      | inr err => return_ (FromErr err)
      | inl newValidUntil =>
          mret (actions ++ [DiscountCodeSetValidUntilAction (Some newValidUntil)])
      end
    else mret (actions ++ [DiscountCodeSetValidUntilAction None])
  else mret actions.

(** Lines 203-300: [input.Actions] from the empty slice through the blocks. *)
Definition updateActions (d : ResourceData) : M (list DiscountCodeUpdateAction) :=
  let actions := [] in
  let actions := changedName d actions in
  let actions := changedDescription d actions in
  let actions := changedPredicate d actions in
  let actions := changedMaxApplications d actions in
  let actions := changedMaxApplicationsPerCustomer d actions in
  let actions := changedCartDiscounts d actions in
  let actions := changedGroups d actions in
  let actions := changedIsActive d actions in
  actions ← changedValidFrom d actions;
  changedValidUntil d actions.

Definition resourceDiscountCodeUpdate (m : Client) : Handler := handler (
  d ← getData;
  resp ← Execute m (GetById (Id d));
  match resp.2 with
  | Some err => return_ (FromErr err)
  | None => mret tt
  end;;
  discountCode ← deref resp.1;
  actions ← updateActions d;
  let input := {| Version := dcVersion discountCode; Actions := actions |} in
  log_Print ("[DEBUG] Will perform update operation with the following actions:"
             +:+ newline +:+ stringFormatActions (Actions input));;
  resp ← Execute m (PostUpdate (dcID discountCode) input);
  match resp.2 with
  | Some err =>
      match asErrorResponse err with
      | Some ctErr =>
          log_Print ("[DEBUG] " +:+ Error err +:+ ": " +:+ stringFormatErrorExtras ctErr)
      | None => mret tt
      end;;
      return_ (FromErr err)
  | None => mret tt
  end;;
  return_call (resourceDiscountCodeRead m)).

(** *** Create (lines 96-153) *)

Definition setVersion (v : Z) (f : Fields) : Fields :=
  {| version := v;
     code := code f; name := name f; description := description f;
     predicate := predicate f; cart_discounts := cart_discounts f;
     groups := groups f; is_active := is_active f;
     valid_from := valid_from f; valid_until := valid_until f;
     max_applications_per_customer := max_applications_per_customer f;
     max_applications := max_applications f |}.

(** [draft.ValidFrom = &validFrom] and [draft.ValidUntil = &validUntil]. *)
Definition setValidFrom (validFrom : Time) (draft : DiscountCodeDraft) : DiscountCodeDraft :=
  {| Name := Name draft; Description := Description draft; Code := Code draft;
     CartPredicate := CartPredicate draft; IsActive := IsActive draft;
     MaxApplicationsPerCustomer := MaxApplicationsPerCustomer draft;
     MaxApplications := MaxApplications draft; Groups := Groups draft;
     CartDiscounts := CartDiscounts draft;
     ValidFrom := Some validFrom; ValidUntil := ValidUntil draft |}.

Definition setValidUntil (validUntil : Time) (draft : DiscountCodeDraft) : DiscountCodeDraft :=
  {| Name := Name draft; Description := Description draft; Code := Code draft;
     CartPredicate := CartPredicate draft; IsActive := IsActive draft;
     MaxApplicationsPerCustomer := MaxApplicationsPerCustomer draft;
     MaxApplications := MaxApplications draft; Groups := Groups draft;
     CartDiscounts := CartDiscounts draft;
     ValidFrom := ValidFrom draft; ValidUntil := Some validUntil |}.

(** The closure handed to [RetryContext]; it assigns the captured
    [discountCode] on every attempt. *)
Definition createAttempt (m : Client) (draft : DiscountCodeDraft)
    (discountCode : option DiscountCode) : M (option DiscountCode * option RetryError) :=
  resp ← Execute m (PostDraft draft);
  let discountCode := resp.1 in
  match resp.2 with
  | Some err => mret (discountCode, Some (handleCommercetoolsError err))
  | None => mret (discountCode, None)
  end.

(** Lines 100-128: the draft, with the validity times that are given. *)
Definition createDraft (d : ResourceData) : M DiscountCodeDraft :=
  let name := unmarshallLocalizedString (Get name d) in
  let description := unmarshallLocalizedString (Get description d) in
  let draft :=
    {| Name := Some name;
       Description := Some description;
       Code := Get code d;
       CartPredicate := stringRef (Get predicate d);
       IsActive := boolRef (Get is_active d);
       MaxApplicationsPerCustomer := intRef (Get max_applications_per_customer d);
       MaxApplications := intRef (Get max_applications d);
       Groups := unmarshallDiscountCodeGroups d;
       CartDiscounts := unmarshallDiscountCodeCartDiscounts d;
       ValidFrom := None;
       ValidUntil := None |} in
  draft ←
    (let val := Get valid_from d in
     if bool_decide (0 < String.length val) then
       match unmarshallTime val with
       | inr err => return_ (FromErr err)
       | inl validFrom => mret (setValidFrom validFrom draft)
       end
     else mret draft);
  let val := Get valid_until d in
  if bool_decide (0 < String.length val) then
    match unmarshallTime val with
    | inr err => return_ (FromErr err)
    | inl validUntil => mret (setValidUntil validUntil draft)
    end
  else mret draft.

Definition resourceDiscountCodeCreate (m : Client) : Handler := handler (
  d ← getData;
  let discountCode : option DiscountCode := None in
  draft ← createDraft d;
  p ← RetryContext (1 * Minute)%Z (createAttempt m draft) discountCode;
  let discountCode := p.1 in
  match p.2 with
  | Some errorResponse => return_ (FromErr errorResponse)
  | None => mret tt
  end;;
  match discountCode with
  | None => return_ (Errorf "No discount code created")
  | Some discountCode =>
      modifyData (SetId (dcID discountCode));;
      modifyData (SetFields (setVersion (dcVersion discountCode)));;
      return_call (resourceDiscountCodeRead m)
  end).

End DiscountCode.

(** ** Vocabulary of the properties *)

(** The remote calls a handler issues when started in run [r], with their
    answers. *)
Definition issued (h : Handler) (r : Run) : list (Call * Response) :=
  drop (length (calls r)) (calls (h r).2).

(** An error the read handler treats as "gone": an [ErrorResponse] with
    status 404. *)
Definition notFound (err : error) : bool :=
  match err with
  | PlatformError e => bool_decide (StatusCode e = 404%Z)
  | GoError _ => false
  end.

Definition failed (cr : Call * Response) : Prop := cr.2.2 ≠ None.

(** A handler that never tries again: a call that failed is the last call it
    issues. *)
Definition noRetry (h : Handler) (r : Run) : Prop :=
  ∀ before cr after, issued h r = before ++ cr :: after → failed cr → after = [].

(** The line the read handler logs first. *)
Definition readLine (r : Run) : string :=
  "[DEBUG] Reading discount code from commercetools, with discount code id: "
  +:+ Id (data r).

(** The ten fields the update handler looks at, in the order of its blocks. *)
Inductive UpdatedField :=
| FName | FDescription | FPredicate | FMaxApplications
| FMaxApplicationsPerCustomer | FCartDiscounts | FGroups | FIsActive
| FValidFrom | FValidUntil.

Definition updatedFields : list UpdatedField :=
  [FName; FDescription; FPredicate; FMaxApplications;
   FMaxApplicationsPerCustomer; FCartDiscounts; FGroups; FIsActive;
   FValidFrom; FValidUntil].

Definition changed (d : ResourceData) (f : UpdatedField) : bool :=
  match f with
  | FName => HasChange name d
  | FDescription => HasChange description d
  | FPredicate => HasChange predicate d
  | FMaxApplications => HasChange max_applications d
  | FMaxApplicationsPerCustomer => HasChange max_applications_per_customer d
  | FCartDiscounts => HasChange cart_discounts d
  | FGroups => HasChange groups d
  | FIsActive => HasChange is_active d
  | FValidFrom => HasChange valid_from d
  | FValidUntil => HasChange valid_until d
  end.

(** The field an update action writes. *)
Definition fieldOf (a : DiscountCodeUpdateAction) : UpdatedField :=
  match a with
  | DiscountCodeSetNameAction _ => FName
  | DiscountCodeSetDescriptionAction _ => FDescription
  | DiscountCodeSetCartPredicateAction _ => FPredicate
  | DiscountCodeSetMaxApplicationsAction _ => FMaxApplications
  | DiscountCodeSetMaxApplicationsPerCustomerAction _ => FMaxApplicationsPerCustomer
  | DiscountCodeChangeCartDiscountsAction _ => FCartDiscounts
  | DiscountCodeChangeGroupsAction _ => FGroups
  | DiscountCodeChangeIsActiveAction _ => FIsActive
  | DiscountCodeSetValidFromAction _ => FValidFrom
  | DiscountCodeSetValidUntilAction _ => FValidUntil
  end.

(** A planned validity string the handlers can use: empty, or parsed by
    [unmarshallTime]. *)
Definition usable {helpers : Helpers} (val : string) : Prop :=
  val = EmptyString ∨ ∃ t, unmarshallTime val = inl t.

(** A planned validity string that makes a handler give up: not empty and
    rejected by [unmarshallTime] with [err]. *)
Definition rejected {helpers : Helpers} (val : string) (err : error) : Prop :=
  0 < String.length val ∧ unmarshallTime val = inr err.

(** The eight blocks of the update handler that cannot fail. *)
Definition firstEightBlocks {helpers : Helpers} (d : ResourceData) : list DiscountCodeUpdateAction :=
  changedIsActive d (changedGroups d (changedCartDiscounts d
    (changedMaxApplicationsPerCustomer d (changedMaxApplications d
      (changedPredicate d (changedDescription d (changedName d []))))))).

(** The run of the update handler after its first call, the fetch. *)
Definition fetched (m : Client) (r : Run) : Run :=
  let call := GetById (Id (data r)) in
  {| data := data r; calls := calls r ++ [(call, m (calls r) call)]; logs := logs r |}.

(** The request the update handler posts for the fetched [discountCode]. *)
Definition updateCall (discountCode : DiscountCode)
    (actions : list DiscountCodeUpdateAction) : Call :=
  PostUpdate (dcID discountCode)
             {| Version := dcVersion discountCode; Actions := actions |}.

Definition updateLine {helpers : Helpers} (actions : list DiscountCodeUpdateAction) : string :=
  "[DEBUG] Will perform update operation with the following actions:"
  +:+ newline +:+ stringFormatActions actions.

(** The run of the update handler after it posted [actions]. *)
Definition posted {helpers : Helpers} (m : Client) (r : Run) (discountCode : DiscountCode)
    (actions : list DiscountCodeUpdateAction) : Run :=
  let call := updateCall discountCode actions in
  {| data := data r;
     calls := calls (fetched m r) ++ [(call, m (calls (fetched m r)) call)];
     logs := logs r ++ [updateLine actions] |}.

(** An attempt of the create call that is tried again: a post of the draft
    answered with an error that [handleCommercetoolsError] calls retryable. *)
Definition retriedPost {helpers : Helpers} (draft : DiscountCodeDraft)
    (cr : Call * Response) : Prop :=
  cr.1 = PostDraft draft
  ∧ ∃ err, cr.2.2 = Some err ∧ Retryable (handleCommercetoolsError err) = true.

(** The error the retry loop reports for a failed attempt. *)
Definition reported {helpers : Helpers} (err : error) : error :=
  Err (handleCommercetoolsError err).

(** The run of the create handler when it hands over to the read handler:
    the [posts] were issued, the id and version of the created
    [discountCode] are stored. *)
Definition created (r : Run) (posts : list (Call * Response))
    (discountCode : DiscountCode) : Run :=
  {| data := SetFields (setVersion (dcVersion discountCode))
                       (SetId (dcID discountCode) (data r));
     calls := calls r ++ posts;
     logs := logs r |}.

(** A recorded call whose answer is what the client gave, after some
    history. *)
Definition fromClient (m : Client) (cr : Call * Response) : Prop :=
  ∃ history, cr.2 = m history cr.1.

(** The run of the create handler after the retry loop issued [posts]. *)
Definition attempted (r : Run) (posts : list (Call * Response)) : Run :=
  {| data := data r; calls := calls r ++ posts; logs := logs r |}.

(** ** Sample inputs *)

(** Stand-ins for the helpers: [unmarshallTime] knows one timestamp and
    rejects every other string; errors of the platform are final, any other
    error is worth another attempt. *)
Definition sampleHelpers : Helpers := {|
  unmarshallLocalizedString := λ v, v;
  stringRef := λ s, if bool_decide (s = EmptyString) then None else Some s;
  boolRef := Some;
  intRef := Some;
  expandStringArray := λ l, l;
  unmarshallTime := λ s,
    if bool_decide (s = "2021-01-01T00:00:00Z") then inl 1609459200%Z
    else inr (GoError ("cannot parse " +:+ s));
  marshallTime := λ t,
    match t with
    | Some _ => "2021-01-01T00:00:00Z"
    | None => EmptyString
    end;
  handleCommercetoolsError := λ err,
    {| Err := err; Retryable := negb (bool_decide (is_Some (asErrorResponse err))) |};
  stringFormatObject := λ _, "discount code";
  stringFormatActions := λ _, "actions";
  stringFormatErrorExtras := λ _, "extras";
|}.

Definition sampleWindow : RetryWindow := {| furtherAttempts := λ _, 2 |}.

Definition sampleFields : Fields := {|
  name := {[ "en" := "Summer" ]};
  description := ∅;
  code := "SUMMER";
  valid_from := EmptyString;
  valid_until := EmptyString;
  is_active := true;
  predicate := "1 = 1";
  max_applications_per_customer := 1;
  max_applications := 100;
  groups := [];
  cart_discounts := ["cd-1"; "cd-2"];
  version := 3;
|}.

Definition withValidity (vfrom vuntil : string) (f : Fields) : Fields := {|
  name := name f; description := description f; code := code f;
  valid_from := vfrom; valid_until := vuntil;
  is_active := is_active f; predicate := predicate f;
  max_applications_per_customer := max_applications_per_customer f;
  max_applications := max_applications f; groups := groups f;
  cart_discounts := cart_discounts f; version := version f;
|}.

Definition sampleCode : DiscountCode := {|
  dcID := "dc-1"; dcVersion := 3; dcCode := "SUMMER";
  dcName := Some {[ "en" := "Summer" ]}; dcDescription := None;
  dcCartPredicate := Some "1 = 1";
  dcCartDiscounts := [ {| RefID := "cd-1" |}; {| RefID := "cd-2" |} ];
  dcGroups := []; dcIsActive := true;
  dcValidFrom := None; dcValidUntil := None;
  dcMaxApplicationsPerCustomer := Some 1%Z; dcMaxApplications := Some 100%Z;
|}.

Definition startRun (d : ResourceData) : Run :=
  {| data := d; calls := []; logs := [] |}.

(** Nothing planned differs from the prior state. *)
Definition unchangedData : ResourceData :=
  {| prior := sampleFields; planned := sampleFields; Id := "dc-1" |}.

(** [valid_from] is planned to change to a string that is no time. *)
Definition badFromData : ResourceData :=
  {| prior := sampleFields;
     planned := withValidity "tomorrow" EmptyString sampleFields;
     Id := "dc-1" |}.

(** Both validity bounds were set and are planned to be removed. *)
Definition unsetData : ResourceData :=
  {| prior := withValidity "2021-01-01T00:00:00Z" "2021-01-01T00:00:00Z" sampleFields;
     planned := sampleFields;
     Id := "dc-1" |}.

(** A platform that has the discount code and answers every call with it. *)
Definition presentClient : Client := λ _ _, (Some sampleCode, None).

(** A platform that answers every call with a 404 error response. *)
Definition goneClient : Client :=
  λ _ _, (None, Some (PlatformError {| StatusCode := 404; Message := "Not Found" |})).

(** A platform that answers with success and no discount code. *)
Definition emptyClient : Client := λ _ _, (None, None).

(** A platform whose first answer is a transport error, and which has the
    discount code from then on. *)
Definition flakyClient : Client := λ history _,
  match history with
  | [] => (None, Some (GoError "connection reset"))
  | _ => (Some sampleCode, None)
  end.

(** Only [code] is planned to change. *)
Definition codeChangedData : ResourceData :=
  {| prior := sampleFields;
     planned := {| name := name sampleFields; description := description sampleFields;
                   code := "WINTER";
                   valid_from := valid_from sampleFields;
                   valid_until := valid_until sampleFields;
                   is_active := is_active sampleFields;
                   predicate := predicate sampleFields;
                   max_applications_per_customer :=
                     max_applications_per_customer sampleFields;
                   max_applications := max_applications sampleFields;
                   groups := groups sampleFields;
                   cart_discounts := cart_discounts sampleFields;
                   version := version sampleFields |};
     Id := "dc-1" |}.

(** A platform that cannot be reached: every call ends in a transport
    error. *)
Definition unreachableClient : Client :=
  λ _ _, (None, Some (GoError "connection refused")).

(** A platform that refuses every call with a 400 error response. *)
Definition refusingClient : Client :=
  λ _ _, (None, Some (PlatformError {| StatusCode := 400; Message := "Bad Request" |})).

(** A platform that creates the discount code and has lost it by the time it
    is fetched. *)
Definition forgetfulClient : Client := λ _ call,
  match call with
  | PostDraft _ => (Some sampleCode, None)
  | _ => (None, Some (PlatformError {| StatusCode := 404; Message := "Not Found" |}))
  end.

(** ** Properties *)

(** *** The marshalling loops *)

(** A slice of the right length filled index by index holds the image of the
    source slice. *)
Lemma fill_by_index {A B} (f : A → B) (z : B) (l : list A) (k : nat) :
  k ≤ length l →
  foldl (λ acc i, match l !! i with
                  | Some x => <[i := f x]> acc
                  | None => acc
                  end)
        (replicate (length l) z) (seq 0 k)
  = (f <$> take k l) ++ replicate (length l - k) z.
Proof.
  induction k as [|k IH]; intros Hk.
  - simpl. by rewrite Nat.sub_0_r.
  - rewrite seq_S, foldl_app. simpl. rewrite IH by lia.
    destruct (lookup_lt_is_Some_2 l k) as [x Hx]; [lia|]. rewrite Hx.
    rewrite (take_S_r _ _ _ Hx), fmap_app. simpl.
    replace (length l - k) with (S (length l - S k)) by lia. simpl.
    rewrite insert_app_r_alt; rewrite length_fmap, length_take; [|lia].
    replace (k - k `min` length l) with 0 by lia. simpl.
    by rewrite <- app_assoc.
Qed.

Lemma fill_all {A B} (f : A → B) (z : B) (l : list A) :
  foldl (λ acc i, match l !! i with
                  | Some x => <[i := f x]> acc
                  | None => acc
                  end)
        (replicate (length l) z) (seq 0 (length l))
  = f <$> l.
Proof.
  rewrite fill_by_index by lia.
  rewrite take_ge by lia. rewrite Nat.sub_diag. simpl. apply app_nil_r.
Qed.

Lemma unmarshallDiscountCodeCartDiscounts_map d :
  unmarshallDiscountCodeCartDiscounts d
  = (λ id, {| ID := Some id; Key := None |}) <$> Get cart_discounts d.
Proof. unfold unmarshallDiscountCodeCartDiscounts. apply fill_all. Qed.

Lemma marshallDiscountCodeCartDiscounts_map values :
  marshallDiscountCodeCartDiscounts values = RefID <$> values.
Proof. unfold marshallDiscountCodeCartDiscounts. apply fill_all. Qed.

(** C6: the cart-discount ids of the configuration, turned into resource
    identifiers by [unmarshallDiscountCodeCartDiscounts], come back unchanged
    from [marshallDiscountCodeCartDiscounts] applied to references that carry
    the ids of those identifiers, position by position; the identifiers are as
    many as the ids and in their order. *)
Theorem cart_discounts_round_trip d (values : list CartDiscountReference) :
  Forall2 (λ identifier reference, ID identifier = Some (RefID reference))
          (unmarshallDiscountCodeCartDiscounts d) values →
  marshallDiscountCodeCartDiscounts values = Get cart_discounts d
  ∧ length (unmarshallDiscountCodeCartDiscounts d) = length (Get cart_discounts d)
  ∧ ∀ i id, Get cart_discounts d !! i = Some id →
            ID <$> unmarshallDiscountCodeCartDiscounts d !! i = Some (Some id).
Proof.
  rewrite unmarshallDiscountCodeCartDiscounts_map, marshallDiscountCodeCartDiscounts_map.
  intros Hcarry. split; [|split].
  - revert values Hcarry.
    induction (Get cart_discounts d) as [|id ids IH]; intros values Hcarry;
      inversion Hcarry as [|? reference ? rest Hid Hrest]; subst; [done|].
    simpl in *. f_equal; [congruence | by apply IH].
  - by rewrite length_fmap.
  - intros i id Hi. by rewrite list_lookup_fmap, Hi.
Qed.

Lemma cart_discounts_round_trip_witness :
  marshallDiscountCodeCartDiscounts (dcCartDiscounts sampleCode)
  = Get cart_discounts unchangedData.
Proof.
  apply (cart_discounts_round_trip unchangedData (dcCartDiscounts sampleCode)).
  vm_compute. repeat constructor.
Defined.

(** *** Delete *)

(** C3: whatever the remote delete call answers, the delete handler returns
    empty diagnostics; it issues that one call, leaves the resource data as
    they are, and when the call answered with an error it logs the error. *)
Theorem delete_swallows_errors (m : Client) (r : Run) :
  let call := DeleteById (Id (data r)) (Get version (data r)) true in
  let resp := m (calls r) call in
  let out := resourceDiscountCodeDelete m r in
  out.1 = Diags []
  ∧ calls out.2 = calls r ++ [(call, resp)]
  ∧ data out.2 = data r
  ∧ logs out.2
    = logs r ++ match resp.2 with
                | Some err =>
                    ["[ERROR] Error during deleting discount code resource " +:+ Error err]
                | None => []
                end.
Proof.
  intros call resp out. subst out.
  unfold resourceDiscountCodeDelete, handler, mbind, M_bind, mret, M_ret. simpl.
  fold call. fold resp. destruct resp as [discountCode [err|]]; simpl.
  - done.
  - by rewrite app_nil_r.
Qed.

(** *** Read *)

(** The read handler, path by path. *)
Lemma read_run {helpers : Helpers} (m : Client) (r : Run) :
  let call := GetById (Id (data r)) in
  let resp := m (calls r) call in
  let trace := calls r ++ [(call, resp)] in
  resourceDiscountCodeRead m r =
  match resp.2 with
  | Some err =>
      if notFound err
      then (Diags [], {| data := SetId EmptyString (data r); calls := trace;
                         logs := logs r ++ [readLine r] |})
      else (Diags (FromErr err), {| data := data r; calls := trace;
                                    logs := logs r ++ [readLine r] |})
  | None =>
      match resp.1 with
      | None =>
          (Diags [], {| data := SetId EmptyString (data r); calls := trace;
                        logs := (logs r ++ [readLine r])
                                ++ ["[DEBUG] No discount code found"] |})
      | Some discountCode =>
          (Diags [], {| data := SetFields (setFromDiscountCode discountCode) (data r);
                        calls := trace;
                        logs := ((logs r ++ [readLine r])
                                 ++ ["[DEBUG] Found following discount code:"])
                                ++ [stringFormatObject discountCode] |})
      end
  end.
Proof.
  intros call resp trace. subst trace.
  unfold resourceDiscountCodeRead, handler, mbind, M_bind, mret, M_ret. simpl.
  fold call. fold resp. destruct resp as [[discountCode|] [[ctErr|msg]|]]; simpl;
    try done; by case_bool_decide.
Qed.

(** C8: when the platform answers the read with a 404 error response, or
    with success and no discount code, the read handler clears the resource
    id and returns no diagnostics; a diagnostic comes only from an error that
    is not a 404 error response, and every such error gives one. *)
Theorem read_gone_clears_id {helpers : Helpers} (m : Client) (r : Run) :
  let resp := m (calls r) (GetById (Id (data r))) in
  let out := resourceDiscountCodeRead m r in
  ((∃ err, resp.2 = Some err ∧ notFound err = true) ∨ resp = (None, None) →
     out.1 = Diags [] ∧ Id (data out.2) = EmptyString)
  ∧ (∀ diags, out.1 = Diags diags → diags ≠ [] →
       ∃ err, resp.2 = Some err ∧ notFound err = false ∧ diags = FromErr err)
  ∧ (∀ err, resp.2 = Some err → notFound err = false →
       out.1 = Diags (FromErr err) ∧ Id (data out.2) = Id (data r))
  ∧ out.1 ≠ Panic.
Proof.
  intros resp out. subst out. rewrite read_run. fold resp.
  destruct resp as [[discountCode|] [err|]]; simpl;
    try destruct (notFound err) eqn:Hgone; simpl.
  all: split_and!; try done; intros; destruct_or?;
    repeat match goal with Hex : ∃ _, _ |- _ => destruct Hex end;
    destruct_and?; simplify_eq/=; eauto; congruence.
Qed.

Lemma read_gone_clears_id_witness :
  (resourceDiscountCodeRead (helpers := sampleHelpers) goneClient (startRun unchangedData)).1
  = Diags []
  ∧ Id (data (resourceDiscountCodeRead (helpers := sampleHelpers) goneClient
                (startRun unchangedData)).2) = EmptyString.
Proof.
  destruct (read_gone_clears_id (helpers := sampleHelpers) goneClient (startRun unchangedData))
    as [Hgone _].
  apply Hgone. left. eexists. split; reflexivity.
Defined.

(** *** The update actions *)

Lemma filter_changed_cons d (f : UpdatedField) (fs : list UpdatedField) :
  filter (λ f, changed d f) (f :: fs)
  = (if changed d f then [f] else []) ++ filter (λ f, changed d f) fs.
Proof. rewrite filter_cons. by destruct (changed d f). Qed.

(** Each of the first eight blocks appends one action of its field when the
    field changed and nothing otherwise. *)
Lemma firstEightBlocks_fields {helpers : Helpers} d :
  fieldOf <$> firstEightBlocks d
  = filter (λ f, changed d f)
      [FName; FDescription; FPredicate; FMaxApplications;
       FMaxApplicationsPerCustomer; FCartDiscounts; FGroups; FIsActive].
Proof.
  rewrite !filter_changed_cons. simpl.
  unfold firstEightBlocks, changedIsActive, changedGroups, changedCartDiscounts,
    changedMaxApplicationsPerCustomer, changedMaxApplications, changedPredicate,
    changedDescription, changedName.
  repeat match goal with
         | |- context [if ?b then _ else _] => destruct b
         end;
    rewrite ?fmap_app; simpl; rewrite ?app_nil_r, <- ?app_assoc; reflexivity.
Qed.

Lemma changedValidFrom_run {helpers : Helpers} d actions r :
  changedValidFrom d actions r =
  if HasChange valid_from d then
    if bool_decide (0 < String.length (Get valid_from d)) then
      match unmarshallTime (Get valid_from d) with
      | inl t => (Next (actions ++ [DiscountCodeSetValidFromAction (Some t)]), r)
      | inr err => (Return (FromErr err), r)
      end
    else (Next (actions ++ [DiscountCodeSetValidFromAction None]), r)
  else (Next actions, r).
Proof.
  unfold changedValidFrom.
  destruct (HasChange valid_from d); [|done].
  case_bool_decide; [|done]. by destruct (unmarshallTime _).
Qed.

Lemma changedValidUntil_run {helpers : Helpers} d actions r :
  changedValidUntil d actions r =
  if HasChange valid_until d then
    if bool_decide (0 < String.length (Get valid_until d)) then
      match unmarshallTime (Get valid_until d) with
      | inl t => (Next (actions ++ [DiscountCodeSetValidUntilAction (Some t)]), r)
      | inr err => (Return (FromErr err), r)
      end
    else (Next (actions ++ [DiscountCodeSetValidUntilAction None]), r)
  else (Next actions, r).
Proof.
  unfold changedValidUntil.
  destruct (HasChange valid_until d); [|done].
  case_bool_decide; [|done]. by destruct (unmarshallTime _).
Qed.

Lemma updateActions_blocks {helpers : Helpers} d r :
  updateActions d r
  = (actions ← changedValidFrom d (firstEightBlocks d); changedValidUntil d actions) r.
Proof. reflexivity. Qed.

Lemma usable_length {helpers : Helpers} (val : string) :
  usable val → bool_decide (0 < String.length val) = true → ∃ t, unmarshallTime val = inl t.
Proof.
  intros [-> | Hparsed] Hlen; [|done].
  apply bool_decide_eq_true_1 in Hlen. simpl in Hlen. lia.
Qed.

(** The construction of the actions neither touches the run nor panics: it
    gives the actions or leaves the handler with a parse error. *)
Lemma updateActions_cases {helpers : Helpers} d r :
  (∃ actions, updateActions d r = (Next actions, r))
  ∨ (∃ err, updateActions d r = (Return (FromErr err), r)
            ∧ ((HasChange valid_from d ∧ rejected (Get valid_from d) err)
               ∨ (HasChange valid_until d ∧ rejected (Get valid_until d) err))).
Proof.
  rewrite updateActions_blocks. unfold mbind, M_bind, rejected.
  rewrite changedValidFrom_run.
  destruct (HasChange valid_from d); simpl;
    [case_bool_decide as HlenFrom;
     [destruct (unmarshallTime (Get valid_from d)) as [t|err] eqn:Hfrom|]|];
    try (right; exists err; by eauto 6);
    rewrite changedValidUntil_run;
    (destruct (HasChange valid_until d); simpl;
     [case_bool_decide as HlenUntil;
      [destruct (unmarshallTime (Get valid_until d)) as [t'|err'] eqn:Huntil|]|]);
    try (right; exists err'; by eauto 6); left; eauto.
Qed.

(** When every changed validity string is usable the construction succeeds,
    with one action per changed field, in the order of the blocks. *)
Lemma updateActions_fields {helpers : Helpers} d r :
  (HasChange valid_from d → usable (Get valid_from d)) →
  (HasChange valid_until d → usable (Get valid_until d)) →
  ∃ actions,
    updateActions d r = (Next actions, r)
    ∧ fieldOf <$> actions = filter (λ f, changed d f) updatedFields.
Proof.
  intros Hfrom Huntil.
  assert (filter (λ f, changed d f) updatedFields
          = (fieldOf <$> firstEightBlocks d)
            ++ (if HasChange valid_from d then [FValidFrom] else [])
            ++ (if HasChange valid_until d then [FValidUntil] else [])) as ->.
  { rewrite firstEightBlocks_fields. unfold updatedFields.
    rewrite !filter_changed_cons. simpl.
    rewrite filter_nil, app_nil_r, <- !app_assoc. reflexivity. }
  rewrite updateActions_blocks. unfold mbind, M_bind.
  rewrite changedValidFrom_run.
  destruct (HasChange valid_from d); simpl.
  - destruct (bool_decide (0 < String.length (Get valid_from d))) eqn:HlenFrom.
    + destruct (usable_length _ (Hfrom I) HlenFrom) as [t ->].
      rewrite changedValidUntil_run.
      destruct (HasChange valid_until d); simpl.
      * destruct (bool_decide (0 < String.length (Get valid_until d))) eqn:HlenUntil.
        -- destruct (usable_length _ (Huntil I) HlenUntil) as [t' ->].
           eexists. split; [done|]. by rewrite !fmap_app, <- app_assoc.
        -- eexists. split; [done|]. by rewrite !fmap_app, <- app_assoc.
      * eexists. split; [done|]. by rewrite !fmap_app.
    + rewrite changedValidUntil_run.
      destruct (HasChange valid_until d); simpl.
      * destruct (bool_decide (0 < String.length (Get valid_until d))) eqn:HlenUntil.
        -- destruct (usable_length _ (Huntil I) HlenUntil) as [t' ->].
           eexists. split; [done|]. by rewrite !fmap_app, <- app_assoc.
        -- eexists. split; [done|]. by rewrite !fmap_app, <- app_assoc.
      * eexists. split; [done|]. by rewrite !fmap_app.
  - rewrite changedValidUntil_run.
    destruct (HasChange valid_until d); simpl.
    + destruct (bool_decide (0 < String.length (Get valid_until d))) eqn:HlenUntil.
      * destruct (usable_length _ (Huntil I) HlenUntil) as [t' ->].
        eexists. split; [done|]. by rewrite !fmap_app.
      * eexists. split; [done|]. by rewrite !fmap_app.
    + eexists. split; [done|]. by rewrite app_nil_r.
Qed.

(** *** Update, path by path *)

Lemma update_fetch_failed {helpers : Helpers} (m : Client) (r : Run) err :
  (m (calls r) (GetById (Id (data r)))).2 = Some err →
  resourceDiscountCodeUpdate m r = (Diags (FromErr err), fetched m r).
Proof.
  intros Herr.
  unfold resourceDiscountCodeUpdate, handler, mbind, M_bind, mret, M_ret. simpl.
  by rewrite Herr.
Qed.

(** The fetch answered with neither a discount code nor an error: reading
    [discountCode.Version] panics. *)
Lemma update_fetch_nil {helpers : Helpers} (m : Client) (r : Run) :
  m (calls r) (GetById (Id (data r))) = (None, None) →
  resourceDiscountCodeUpdate m r = (Panic, fetched m r).
Proof.
  intros Hresp.
  unfold resourceDiscountCodeUpdate, handler, mbind, M_bind, mret, M_ret, fetched.
  simpl. by rewrite Hresp.
Qed.

Lemma update_time_rejected {helpers : Helpers} (m : Client) (r : Run) discountCode diags :
  m (calls r) (GetById (Id (data r))) = (Some discountCode, None) →
  updateActions (data r) (fetched m r) = (Return diags, fetched m r) →
  resourceDiscountCodeUpdate m r = (Diags diags, fetched m r).
Proof.
  intros Hresp Hactions.
  unfold resourceDiscountCodeUpdate, handler, mbind, M_bind, mret, M_ret. simpl.
  rewrite Hresp. simpl. unfold fetched in Hactions. rewrite Hresp in Hactions.
  rewrite Hactions. unfold fetched. by rewrite Hresp.
Qed.

Lemma update_post_failed {helpers : Helpers} (m : Client) (r : Run)
    discountCode actions err :
  m (calls r) (GetById (Id (data r))) = (Some discountCode, None) →
  updateActions (data r) (fetched m r) = (Next actions, fetched m r) →
  (m (calls (fetched m r)) (updateCall discountCode actions)).2 = Some err →
  (resourceDiscountCodeUpdate m r).1 = Diags (FromErr err)
  ∧ calls (resourceDiscountCodeUpdate m r).2 = calls (posted m r discountCode actions)
  ∧ data (resourceDiscountCodeUpdate m r).2 = data r.
Proof.
  intros Hresp Hactions Herr.
  unfold resourceDiscountCodeUpdate, handler, mbind, M_bind, mret, M_ret. simpl.
  rewrite Hresp. simpl. unfold fetched in Hactions, Herr. simpl in Herr.
  rewrite Hresp in Hactions, Herr.
  rewrite Hactions. simpl. unfold updateCall in Herr. rewrite Herr. simpl.
  unfold posted, fetched, updateCall. simpl. rewrite ?Hresp.
  by destruct (asErrorResponse err).
Qed.

Lemma update_posted {helpers : Helpers} (m : Client) (r : Run) discountCode actions :
  m (calls r) (GetById (Id (data r))) = (Some discountCode, None) →
  updateActions (data r) (fetched m r) = (Next actions, fetched m r) →
  (m (calls (fetched m r)) (updateCall discountCode actions)).2 = None →
  resourceDiscountCodeUpdate m r
  = resourceDiscountCodeRead m (posted m r discountCode actions).
Proof.
  intros Hresp Hactions Herr.
  unfold resourceDiscountCodeUpdate, handler, mbind, M_bind, mret, M_ret. simpl.
  rewrite Hresp. simpl. unfold fetched in Hactions, Herr. simpl in Herr.
  rewrite Hresp in Hactions, Herr.
  rewrite Hactions. simpl. unfold updateCall in Herr. rewrite Herr. simpl.
  unfold return_call, posted, fetched, updateCall, updateLine. simpl. rewrite ?Hresp.
  by destruct (resourceDiscountCodeRead m _) as [[diags|] r'].
Qed.

(** *** What the handlers issue *)

Lemma issued_app (h : Handler) (r : Run) (new : list (Call * Response)) :
  calls (h r).2 = calls r ++ new → issued h r = new.
Proof. intros Hcalls. unfold issued. rewrite Hcalls. apply drop_app_length. Qed.

Lemma read_calls {helpers : Helpers} (m : Client) (r : Run) :
  calls (resourceDiscountCodeRead m r).2
  = calls r ++ [(GetById (Id (data r)), m (calls r) (GetById (Id (data r))))].
Proof.
  rewrite read_run.
  destruct (m (calls r) (GetById (Id (data r)))) as [[discountCode|] [err|]]; simpl;
    try destruct (notFound err); reflexivity.
Qed.

Lemma read_issued {helpers : Helpers} (m : Client) (r : Run) :
  issued (resourceDiscountCodeRead m) r
  = [(GetById (Id (data r)), m (calls r) (GetById (Id (data r))))].
Proof. apply issued_app, read_calls. Qed.

Lemma delete_issued (m : Client) (r : Run) :
  issued (resourceDiscountCodeDelete m) r
  = [(DeleteById (Id (data r)) (Get version (data r)) true,
      m (calls r) (DeleteById (Id (data r)) (Get version (data r)) true))].
Proof. apply issued_app. apply (delete_swallows_errors m r). Qed.

(** The update handler issues its fetch; then, if the fetch gave a discount
    code and the actions could be built, the post; then, if the post
    succeeded, the fetch of the read handler it ends with. *)
Lemma update_paths {helpers : Helpers} (m : Client) (r : Run) :
  let get := GetById (Id (data r)) in
  let fetch := (get, m (calls r) get) in
  (issued (resourceDiscountCodeUpdate m) r = [fetch]
   ∧ ∀ err, fetch.2.2 = Some err →
            (resourceDiscountCodeUpdate m r).1 = Diags (FromErr err))
  ∨ ∃ discountCode actions,
      fetch.2 = (Some discountCode, None)
      ∧ updateActions (data r) (fetched m r) = (Next actions, fetched m r)
      ∧ let call := updateCall discountCode actions in
        let post := (call, m (calls (fetched m r)) call) in
        (∃ err, post.2.2 = Some err
                ∧ issued (resourceDiscountCodeUpdate m) r = [fetch; post]
                ∧ (resourceDiscountCodeUpdate m r).1 = Diags (FromErr err))
        ∨ (post.2.2 = None
           ∧ issued (resourceDiscountCodeUpdate m) r
             = [fetch; post;
                (get, m (calls (posted m r discountCode actions)) get)]
           ∧ resourceDiscountCodeUpdate m r
             = resourceDiscountCodeRead m (posted m r discountCode actions)).
Proof.
  intros get fetch. subst fetch get. simpl.
  destruct (m (calls r) (GetById (Id (data r)))) as [discountCode [err|]] eqn:Hresp.
  { left. rewrite (update_fetch_failed m r err) by by rewrite Hresp.
    split; [|by intros ? [= <-]].
    apply issued_app. rewrite (update_fetch_failed m r err) by by rewrite Hresp.
    unfold fetched. simpl. by rewrite Hresp. }
  destruct discountCode as [discountCode|]; cycle 1.
  { left. split; [|done]. apply issued_app. rewrite (update_fetch_nil m r Hresp).
    unfold fetched. simpl. by rewrite Hresp. }
  destruct (updateActions_cases (data r) (fetched m r))
    as [[actions Hactions] | (err & Hactions & _)]; cycle 1.
  { left. split; [|done]. apply issued_app.
    rewrite (update_time_rejected m r _ _ Hresp Hactions).
    unfold fetched. simpl. by rewrite Hresp. }
  right. exists discountCode, actions. split_and!; [done..|].
  assert (calls (fetched m r)
          = calls r ++ [(GetById (Id (data r)), (Some discountCode, None))]) as Hfetched.
  { unfold fetched. simpl. by rewrite Hresp. }
  match goal with
  | |- context [(m ?history (updateCall discountCode actions)).2] =>
      destruct (m history (updateCall discountCode actions)).2 as [err|] eqn:Hanswer
  end; [left; exists err | right]; (split; [done|]).
  - assert ((m (calls (fetched m r)) (updateCall discountCode actions)).2 = Some err)
      as Hpost by (by rewrite Hfetched).
    destruct (update_post_failed m r _ _ _ Hresp Hactions Hpost) as (Hdiags & Hcalls & _).
    split; [|done]. apply issued_app. rewrite Hcalls.
    unfold posted, fetched. simpl. rewrite Hresp. by rewrite <- app_assoc.
  - assert ((m (calls (fetched m r)) (updateCall discountCode actions)).2 = None)
      as Hpost by (by rewrite Hfetched).
    split; [|by apply update_posted]. apply issued_app.
    rewrite (update_posted m r _ _ Hresp Hactions Hpost), read_calls.
    unfold posted, fetched. simpl. rewrite Hresp. by rewrite <- !app_assoc.
Qed.

(** *** Create: the retry loop *)

Lemma createAttempt_run {helpers : Helpers} (m : Client) draft discountCode (r : Run) :
  createAttempt m draft discountCode r
  = let resp := m (calls r) (PostDraft draft) in
    (Next (resp.1, handleCommercetoolsError <$> resp.2),
     {| data := data r; calls := calls r ++ [(PostDraft draft, resp)]; logs := logs r |}).
Proof.
  unfold createAttempt, Execute, mbind, M_bind, mret, M_ret. simpl.
  by destruct (m (calls r) (PostDraft draft)) as [created_code [err|]].
Qed.

(** The loop issues the post of the draft again after every retryable
    failure while the window lasts, at most [S n] times; it ends with the
    answer of the last post. *)
Lemma retry_createAttempt {helpers : Helpers} (m : Client) draft (n : nat)
    discountCode (r : Run) :
  ∃ (attempts : list (Call * Response)) (resp : Response),
    retry n (createAttempt m draft) discountCode r
    = (Next (resp.1, reported <$> resp.2),
       {| data := data r;
          calls := calls r ++ attempts ++ [(PostDraft draft, resp)];
          logs := logs r |})
    ∧ length attempts ≤ n
    ∧ Forall (retriedPost draft) attempts
    ∧ (∀ err, resp.2 = Some err →
              Retryable (handleCommercetoolsError err) = true → length attempts = n).
Proof.
  revert discountCode r. induction n as [|n IH]; intros discountCode r.
  - exists [], (m (calls r) (PostDraft draft)). simpl.
    unfold mbind, M_bind, mret, M_ret. rewrite createAttempt_run. simpl.
    split_and!; [|done..].
    destruct (m (calls r) (PostDraft draft)) as [created_code [err|]]; simpl; [|done].
    by destruct (Retryable (handleCommercetoolsError err)).
  - simpl. unfold mbind, M_bind, mret, M_ret. rewrite createAttempt_run. simpl.
    destruct (m (calls r) (PostDraft draft)) as [created_code [err|]] eqn:Hresp; simpl.
    + destruct (Retryable (handleCommercetoolsError err)) eqn:Hretry.
      * destruct (IH created_code
                    {| data := data r;
                       calls := calls r ++ [(PostDraft draft, (created_code, Some err))];
                       logs := logs r |})
          as (attempts & resp & Hrun & Hlen & Hretried & Hlast).
        exists ((PostDraft draft, (created_code, Some err)) :: attempts), resp.
        split_and!; [| simpl; lia | | ].
        -- etrans; [exact Hrun|]. simpl. by rewrite <- app_assoc.
        -- constructor; [|done]. split; [done|]. by exists err.
        -- intros err' Herr' Hretry'. simpl. by rewrite (Hlast err' Herr' Hretry').
      * exists [], (created_code, Some err). simpl. split_and!; [done | lia | done |].
        intros err' [= <-]. congruence.
    + exists [], (created_code, None). simpl. split_and!; [done | lia | done | done].
Qed.

(** *** Create, path by path *)

Lemma usable_or_rejected {helpers : Helpers} (val : string) :
  usable val ∨ ∃ err, rejected val err.
Proof.
  unfold usable, rejected. destruct val as [|a s]; [by left; left|].
  destruct (unmarshallTime (String a s)) as [t|err] eqn:Hparse.
  - left. right. by exists t.
  - right. exists err. split; [simpl; lia | done].
Qed.

Lemma rejected_not_usable {helpers : Helpers} (val : string) err :
  rejected val err → ¬ usable val.
Proof.
  intros [Hlen Hparse] [-> | [t Ht]]; [simpl in Hlen; lia | congruence].
Qed.

(** Building the draft neither touches the run nor panics: it gives the
    draft when both validity strings are usable, and leaves the handler with
    the parse error of the first rejected one otherwise. *)
Lemma createDraft_cases {helpers : Helpers} (d : ResourceData) (r : Run) :
  (∃ draft, createDraft d r = (Next draft, r)
            ∧ usable (Get valid_from d) ∧ usable (Get valid_until d))
  ∨ (∃ err, createDraft d r = (Return (FromErr err), r)
            ∧ (rejected (Get valid_from d) err
               ∨ (usable (Get valid_from d) ∧ rejected (Get valid_until d) err))).
Proof.
  unfold createDraft, mbind, M_bind, mret, M_ret. simpl.
  destruct (usable_or_rejected (Get valid_from d)) as [Hfrom | [err Hfrom]].
  - destruct (usable_or_rejected (Get valid_until d)) as [Huntil | [err Huntil]].
    + left.
      destruct (bool_decide (0 < String.length (Get valid_from d))) eqn:HlenFrom;
        [destruct (usable_length _ Hfrom HlenFrom) as [t ->]|];
        (destruct (bool_decide (0 < String.length (Get valid_until d))) eqn:HlenUntil;
         [destruct (usable_length _ Huntil HlenUntil) as [t' ->]|]);
        eauto.
    + right. exists err. split; [|by right].
      destruct Huntil as [HlenUntil Huntil].
      destruct (bool_decide (0 < String.length (Get valid_from d))) eqn:HlenFrom;
        [destruct (usable_length _ Hfrom HlenFrom) as [t ->]|];
        rewrite (bool_decide_eq_true_2 _ HlenUntil), Huntil; done.
  - right. exists err. split; [|by left].
    destruct Hfrom as [HlenFrom Hfrom].
    by rewrite (bool_decide_eq_true_2 _ HlenFrom), Hfrom.
Qed.

(** The create handler either gives up on a validity time before any call,
    or posts the draft under the retry loop and then reports the failure of
    the last post, reports that nothing was created, or stores id and version
    and hands over to the read handler. *)
Lemma create_paths {helpers : Helpers} {window : RetryWindow} (m : Client) (r : Run) :
  (∃ err,
     (rejected (Get valid_from (data r)) err
      ∨ (usable (Get valid_from (data r)) ∧ rejected (Get valid_until (data r)) err))
     ∧ resourceDiscountCodeCreate m r = (Diags (FromErr err), r))
  ∨ (usable (Get valid_from (data r)) ∧ usable (Get valid_until (data r))
     ∧ ∃ draft (attempts : list (Call * Response)) (resp : Response),
         length attempts ≤ furtherAttempts (1 * Minute)%Z
         ∧ Forall (retriedPost draft) attempts
         ∧ (∀ err, resp.2 = Some err →
                   Retryable (handleCommercetoolsError err) = true →
                   length attempts = furtherAttempts (1 * Minute)%Z)
         ∧ let posts := attempts ++ [(PostDraft draft, resp)] in
           let r' := {| data := data r; calls := calls r ++ posts; logs := logs r |} in
           match resp.2, resp.1 with
           | Some err, _ =>
               resourceDiscountCodeCreate m r = (Diags (FromErr (reported err)), r')
           | None, None =>
               resourceDiscountCodeCreate m r
               = (Diags (Errorf "No discount code created"), r')
           | None, Some discountCode =>
               resourceDiscountCodeCreate m r
               = resourceDiscountCodeRead m (created r posts discountCode)
           end).
Proof.
  destruct (createDraft_cases (data r) r)
    as [(draft & Hdraft & Hfrom & Huntil) | (err & Hdraft & Hrej)].
  - right. split_and!; [done..|].
    destruct (retry_createAttempt m draft (furtherAttempts (1 * Minute)%Z) None r)
      as (attempts & resp & Hrun & Hlen & Hretried & Hlast).
    exists draft, attempts, resp. split_and!; [done..|].
    unfold resourceDiscountCodeCreate, handler, mbind, M_bind, mret, M_ret. simpl.
    rewrite Hdraft. unfold RetryContext. rewrite Hrun.
    destruct resp as [[discountCode|] [err|]]; simpl; try done.
    unfold return_call, created. simpl.
    by destruct (resourceDiscountCodeRead m _) as [[diags|] r'].
  - left. exists err. split; [done|].
    unfold resourceDiscountCodeCreate, handler, mbind, M_bind, mret, M_ret. simpl.
    by rewrite Hdraft.
Qed.

Lemma update_second_call {helpers : Helpers} (m : Client) (r : Run) discountCode actions :
  m (calls r) (GetById (Id (data r))) = (Some discountCode, None) →
  updateActions (data r) (fetched m r) = (Next actions, fetched m r) →
  issued (resourceDiscountCodeUpdate m) r !! 1
  = Some (updateCall discountCode actions,
          m (calls (fetched m r)) (updateCall discountCode actions)).
Proof.
  intros Hresp Hactions.
  destruct (update_paths m r)
    as [[Hissued _] | (discountCode' & actions' & Hfetch & Hactions' & Hpost)].
  - exfalso.
    assert (calls (resourceDiscountCodeUpdate m r).2
            = calls r ++ issued (resourceDiscountCodeUpdate m) r) as Hcalls.
    { unfold issued.
      destruct (m (calls (fetched m r)) (updateCall discountCode actions)).2
        as [err|] eqn:Hanswer.
      - destruct (update_post_failed m r _ _ _ Hresp Hactions Hanswer) as (_ & -> & _).
        unfold posted, fetched. simpl.
        by rewrite <- app_assoc, drop_app_length.
      - rewrite (update_posted m r _ _ Hresp Hactions Hanswer), read_calls.
        unfold posted, fetched. simpl.
        by rewrite <- !app_assoc, drop_app_length. }
    rewrite Hissued in Hcalls.
    destruct (m (calls (fetched m r)) (updateCall discountCode actions)).2
      as [err|] eqn:Hanswer.
    + destruct (update_post_failed m r _ _ _ Hresp Hactions Hanswer) as (_ & Hposted & _).
      rewrite Hposted in Hcalls. unfold posted, fetched in Hcalls. simpl in Hcalls.
      rewrite <- app_assoc in Hcalls. apply app_inv_head in Hcalls. done.
    + rewrite (update_posted m r _ _ Hresp Hactions Hanswer), read_calls in Hcalls.
      unfold posted, fetched in Hcalls. simpl in Hcalls.
      rewrite <- !app_assoc in Hcalls. apply app_inv_head in Hcalls. done.
  - simpl in Hfetch. rewrite Hresp in Hfetch. injection Hfetch as <-.
    rewrite Hactions in Hactions'. injection Hactions' as <-.
    by destruct Hpost as [(err & _ & -> & _) | (_ & -> & _)].
Qed.

(** *** Create: a validity time that does not parse *)

(** C9: when the planned [valid_from] or [valid_until] is a non-empty string
    that [unmarshallTime] rejects, the create handler returns the diagnostics
    of that parse error and leaves the run as it found it: no remote call is
    issued, the resource id is not set, nothing is logged. *)
Theorem create_rejected_time {helpers : Helpers} {window : RetryWindow}
    (m : Client) (r : Run) :
  (∃ e, rejected (Get valid_from (data r)) e)
  ∨ (∃ e, rejected (Get valid_until (data r)) e) →
  ∃ err,
    (rejected (Get valid_from (data r)) err ∨ rejected (Get valid_until (data r)) err)
    ∧ resourceDiscountCodeCreate m r = (Diags (FromErr err), r)
    ∧ issued (resourceDiscountCodeCreate m) r = []
    ∧ Id (data (resourceDiscountCodeCreate m r).2) = Id (data r).
Proof.
  intros Hrej.
  destruct (create_paths m r) as [(err & Hwhich & Hrun) | (Hfrom & Huntil & _)].
  - exists err. split_and!.
    + destruct Hwhich as [? | [_ ?]]; [by left | by right].
    + done.
    + unfold issued. rewrite Hrun. simpl. by rewrite drop_all.
    + by rewrite Hrun.
  - destruct Hrej as [[e He] | [e He]]; by apply rejected_not_usable in He.
Qed.

Lemma create_rejected_time_witness :
  ∃ err,
    (rejected (helpers := sampleHelpers) (Get valid_from badFromData) err
     ∨ rejected (helpers := sampleHelpers) (Get valid_until badFromData) err)
    ∧ resourceDiscountCodeCreate (helpers := sampleHelpers) (window := sampleWindow)
        presentClient (startRun badFromData)
      = (Diags (FromErr err), startRun badFromData)
    ∧ issued (resourceDiscountCodeCreate (helpers := sampleHelpers)
                (window := sampleWindow) presentClient) (startRun badFromData) = []
    ∧ Id (data (resourceDiscountCodeCreate (helpers := sampleHelpers)
                  (window := sampleWindow) presentClient (startRun badFromData)).2)
      = Id (data (startRun badFromData)).
Proof.
  apply (create_rejected_time (helpers := sampleHelpers) (window := sampleWindow)
           presentClient (startRun badFromData)).
  left. exists (GoError "cannot parse tomorrow"). split; [vm_compute; lia | reflexivity].
Defined.

(** *** Update: the actions that are sent *)

(** A changed validity string that is rejected stops the construction of the
    actions with its parse error; [valid_from] is looked at first. *)
Lemma updateActions_rejected {helpers : Helpers} (d : ResourceData) (r : Run) err :
  (HasChange valid_from d ∧ rejected (Get valid_from d) err)
  ∨ ((HasChange valid_from d → usable (Get valid_from d))
     ∧ HasChange valid_until d ∧ rejected (Get valid_until d) err) →
  updateActions d r = (Return (FromErr err), r).
Proof.
  intros Hrej.
  rewrite updateActions_blocks. unfold mbind, M_bind. rewrite changedValidFrom_run.
  destruct Hrej as [[Hchanged [Hlen Hparse]] | (Hfrom & Hchanged & [Hlen Hparse])].
  - destruct (HasChange valid_from d); [|done].
    by rewrite (bool_decide_eq_true_2 _ Hlen), Hparse.
  - assert (changedValidUntil d = λ acts r', (Return (FromErr err), r')) as Huntil.
    { unfold changedValidUntil.
      destruct (HasChange valid_until d); [|done].
      by rewrite (bool_decide_eq_true_2 _ Hlen), Hparse. }
    destruct (HasChange valid_from d).
    + destruct (bool_decide (0 < String.length (Get valid_from d))) eqn:HlenFrom;
        [destruct (usable_length _ (Hfrom I) HlenFrom) as [t ->]|];
        by rewrite Huntil.
    + by rewrite Huntil.
Qed.

(** Of the changed validity strings that are rejected, one is met first. *)
Lemma rejected_first {helpers : Helpers} (d : ResourceData) :
  (HasChange valid_from d ∧ ∃ e, rejected (Get valid_from d) e)
  ∨ (HasChange valid_until d ∧ ∃ e, rejected (Get valid_until d) e) →
  ∃ err,
    (HasChange valid_from d ∧ rejected (Get valid_from d) err)
    ∨ ((HasChange valid_from d → usable (Get valid_from d))
       ∧ HasChange valid_until d ∧ rejected (Get valid_until d) err).
Proof.
  intros [[Hchanged [e He]] | [Hchanged [e He]]]; [exists e; by left|].
  destruct (HasChange valid_from d) eqn:HchangedFrom.
  - destruct (usable_or_rejected (Get valid_from d)) as [Hfrom | [e' He']].
    + exists e. right. by split_and!.
    + exists e'. left. by split.
  - exists e. right. by split_and!.
Qed.

(** What the update handler issues, exactly: the fetch alone unless the fetch
    gave a discount code and the actions could be built; then the post; then,
    if the post succeeded, the fetch of the read handler. *)
Lemma update_issued_exact {helpers : Helpers} (m : Client) (r : Run) :
  let get := GetById (Id (data r)) in
  let fetch := (get, m (calls r) get) in
  (issued (resourceDiscountCodeUpdate m) r = [fetch]
   ∧ ¬ ∃ discountCode actions,
         fetch.2 = (Some discountCode, None)
         ∧ updateActions (data r) (fetched m r) = (Next actions, fetched m r))
  ∨ ∃ discountCode actions,
      fetch.2 = (Some discountCode, None)
      ∧ updateActions (data r) (fetched m r) = (Next actions, fetched m r)
      ∧ let call := updateCall discountCode actions in
        let post := (call, m (calls (fetched m r)) call) in
        (post.2.2 ≠ None ∧ issued (resourceDiscountCodeUpdate m) r = [fetch; post])
        ∨ (post.2.2 = None
           ∧ issued (resourceDiscountCodeUpdate m) r
             = [fetch; post;
                (get, m (calls (posted m r discountCode actions)) get)]).
Proof.
  intros get fetch. subst fetch get.
  destruct (update_paths m r)
    as [[Hissued _] | (discountCode & actions & Hfetch & Hactions & Hpath)].
  - left. split; [done|]. intros (discountCode & actions & Hfetch & Hactions).
    pose proof (update_second_call m r _ _ Hfetch Hactions) as Hsecond.
    by rewrite Hissued in Hsecond.
  - right. exists discountCode, actions. split_and!; [done..|].
    destruct Hpath as [(err & Herr & Hissued & _) | (Hnone & Hissued & _)].
    + left. split; [|done]. simpl. simpl in Herr. by rewrite Herr.
    + right. by split.
Qed.

(** C1, as the code has it.  When every changed validity string is empty or
    parses, the update handler builds its action list with exactly one action
    for each changed field and none for an unchanged one, for the ten fields
    in the order name, description, predicate, max_applications,
    max_applications_per_customer, cart_discounts, groups, is_active,
    valid_from, valid_until; with no changed field the list is empty; and
    this list, with the fetched version, is what the handler posts when the
    fetch gave a discount code.  When a changed validity string is not empty
    and does not parse, the handler sends no update, the fetch being its
    only call, and when the fetch gave a discount code it returns the
    diagnostics of the parse error. *)
Theorem update_actions_per_changed_field {helpers : Helpers} (m : Client) (r : Run) :
  ((changed (data r) FValidFrom → usable (Get valid_from (data r))) →
   (changed (data r) FValidUntil → usable (Get valid_until (data r))) →
   ∃ actions,
     updateActions (data r) (fetched m r) = (Next actions, fetched m r)
     ∧ fieldOf <$> actions = filter (λ f, changed (data r) f) updatedFields
     ∧ ((∀ f, changed (data r) f = false) → actions = [])
     ∧ ∀ discountCode,
         m (calls r) (GetById (Id (data r))) = (Some discountCode, None) →
         issued (resourceDiscountCodeUpdate m) r !! 1
         = Some (PostUpdate (dcID discountCode)
                   {| Version := dcVersion discountCode; Actions := actions |},
                 m (calls (fetched m r))
                   (PostUpdate (dcID discountCode)
                      {| Version := dcVersion discountCode; Actions := actions |})))
  ∧ ((changed (data r) FValidFrom ∧ ∃ e, rejected (Get valid_from (data r)) e)
     ∨ (changed (data r) FValidUntil ∧ ∃ e, rejected (Get valid_until (data r)) e) →
     issued (resourceDiscountCodeUpdate m) r
     = [(GetById (Id (data r)), m (calls r) (GetById (Id (data r))))]
     ∧ ∃ err,
         (rejected (Get valid_from (data r)) err
          ∨ rejected (Get valid_until (data r)) err)
         ∧ ∀ discountCode,
             m (calls r) (GetById (Id (data r))) = (Some discountCode, None) →
             resourceDiscountCodeUpdate m r = (Diags (FromErr err), fetched m r)).
Proof.
  split.
  - intros Hfrom Huntil.
    destruct (updateActions_fields (data r) (fetched m r) Hfrom Huntil)
      as (actions & Hactions & Hfields).
    exists actions. split_and!; [done..| |].
    + intros Hunchanged. apply (fmap_nil_inv fieldOf). rewrite Hfields.
      unfold updatedFields.
      rewrite !filter_changed_cons, !Hunchanged. by rewrite filter_nil.
    + intros discountCode Hresp. by apply update_second_call.
  - intros Hrej. destruct (rejected_first (data r) Hrej) as [err Hfirst].
    pose proof (updateActions_rejected (data r) (fetched m r) err Hfirst) as Hstopped.
    split.
    + destruct (update_issued_exact m r)
        as [[Hissued _] | (discountCode & actions & _ & Hactions & _)]; [done|].
      rewrite Hstopped in Hactions. discriminate.
    + exists err. split.
      * destruct Hfirst as [[_ ?] | (_ & _ & ?)]; [by left | by right].
      * intros discountCode Hresp.
        exact (update_time_rejected m r discountCode _ Hresp Hstopped).
Qed.

Lemma update_actions_per_changed_field_witness :
  (∃ actions,
     updateActions (helpers := sampleHelpers) unsetData
       (fetched presentClient (startRun unsetData))
     = (Next actions, fetched presentClient (startRun unsetData))
     ∧ fieldOf <$> actions = [FValidFrom; FValidUntil])
  ∧ issued (resourceDiscountCodeUpdate (helpers := sampleHelpers) presentClient)
      (startRun badFromData)
    = [(GetById "dc-1", (Some sampleCode, None))].
Proof.
  split.
  - destruct (update_actions_per_changed_field (helpers := sampleHelpers)
                presentClient (startRun unsetData)) as [Hbuilt _].
    destruct Hbuilt as (actions & Hactions & Hfields & _).
    + intros _. by left.
    + intros _. by left.
    + exists actions. split; [exact Hactions | exact Hfields].
  - destruct (update_actions_per_changed_field (helpers := sampleHelpers)
                presentClient (startRun badFromData)) as [_ Hstopped].
    destruct Hstopped as [Hissued _].
    + left. split; [exact I|]. exists (GoError "cannot parse tomorrow").
      split; [vm_compute; lia | reflexivity].
    + exact Hissued.
Defined.

(** The claim C1 without its proviso fails: [valid_from] changed to a string
    that is no time, and the handler builds no action list and posts nothing;
    its only call is the fetch. *)
Lemma update_actions_counterexample :
  changed badFromData FValidFrom = true
  ∧ (∀ actions,
       updateActions (helpers := sampleHelpers) badFromData (startRun badFromData)
       ≠ (Next actions, startRun badFromData))
  ∧ resourceDiscountCodeUpdate (helpers := sampleHelpers) presentClient
      (startRun badFromData)
    = (Diags (FromErr (GoError "cannot parse tomorrow")),
       fetched presentClient (startRun badFromData))
  ∧ issued (resourceDiscountCodeUpdate (helpers := sampleHelpers) presentClient)
      (startRun badFromData)
    = [(GetById "dc-1", (Some sampleCode, None))].
Proof.
  split_and!; [by vm_compute | | by vm_compute..].
  intros actions. vm_compute. discriminate.
Qed.

(** C10: when [valid_from] (respectively [valid_until]) changed and its new
    value is the empty string, the block of the update handler for it appends
    a set-valid-from (respectively set-valid-until) action with no timestamp;
    it does not fail and does not call [unmarshallTime], whatever that helper
    would say about the empty string.  With both removed the list ends with
    the two unset actions, and the posted request carries the unset action. *)
Theorem unset_validity_actions {helpers : Helpers} (m : Client) (r : Run)
    (actions : list DiscountCodeUpdateAction) :
  let d := data r in
  (HasChange valid_from d → Get valid_from d = EmptyString →
     changedValidFrom d actions r
     = (Next (actions ++ [DiscountCodeSetValidFromAction None]), r))
  ∧ (HasChange valid_until d → Get valid_until d = EmptyString →
       changedValidUntil d actions r
       = (Next (actions ++ [DiscountCodeSetValidUntilAction None]), r))
  ∧ (HasChange valid_from d → Get valid_from d = EmptyString →
     HasChange valid_until d → Get valid_until d = EmptyString →
       updateActions d r
       = (Next (firstEightBlocks d ++ [DiscountCodeSetValidFromAction None;
                                       DiscountCodeSetValidUntilAction None]), r))
  ∧ (∀ discountCode,
       m (calls r) (GetById (Id d)) = (Some discountCode, None) →
       HasChange valid_from d → Get valid_from d = EmptyString →
       (HasChange valid_until d → usable (Get valid_until d)) →
       ∃ sent,
         issued (resourceDiscountCodeUpdate m) r !! 1
         = Some (updateCall discountCode sent,
                 m (calls (fetched m r)) (updateCall discountCode sent))
         ∧ DiscountCodeSetValidFromAction None ∈ sent)
  ∧ (∀ discountCode,
       m (calls r) (GetById (Id d)) = (Some discountCode, None) →
       HasChange valid_until d → Get valid_until d = EmptyString →
       (HasChange valid_from d → usable (Get valid_from d)) →
       ∃ sent,
         issued (resourceDiscountCodeUpdate m) r !! 1
         = Some (updateCall discountCode sent,
                 m (calls (fetched m r)) (updateCall discountCode sent))
         ∧ last sent = Some (DiscountCodeSetValidUntilAction None)).
Proof.
  intros d. subst d.
  assert (∀ (r' : Run) acts, HasChange valid_from (data r) →
            Get valid_from (data r) = EmptyString →
            changedValidFrom (data r) acts r'
            = (Next (acts ++ [DiscountCodeSetValidFromAction None]), r')) as Hfrom.
  { intros r' acts Hchanged Hempty. rewrite changedValidFrom_run, Hempty.
    by destruct (HasChange valid_from (data r)). }
  assert (∀ (r' : Run) acts, HasChange valid_until (data r) →
            Get valid_until (data r) = EmptyString →
            changedValidUntil (data r) acts r'
            = (Next (acts ++ [DiscountCodeSetValidUntilAction None]), r')) as Huntil.
  { intros r' acts Hchanged Hempty. rewrite changedValidUntil_run, Hempty.
    by destruct (HasChange valid_until (data r)). }
  split_and!.
  - apply Hfrom.
  - apply Huntil.
  - intros HchangedFrom HemptyFrom HchangedUntil HemptyUntil.
    rewrite updateActions_blocks. unfold mbind, M_bind.
    rewrite Hfrom, Huntil by done. by rewrite <- app_assoc.
  - intros discountCode Hresp HchangedFrom HemptyFrom HusableUntil.
    assert (∃ sent, updateActions (data r) (fetched m r) = (Next sent, fetched m r)
                    ∧ DiscountCodeSetValidFromAction None ∈ sent)
      as (sent & Hsent & Hin).
    { rewrite updateActions_blocks. unfold mbind, M_bind. rewrite Hfrom by done.
      rewrite changedValidUntil_run.
      destruct (HasChange valid_until (data r)); [|eexists; split; [done|set_solver]].
      destruct (bool_decide (0 < String.length (Get valid_until (data r)))) eqn:Hlen;
        [destruct (usable_length _ (HusableUntil I) Hlen) as [t ->]|];
        (eexists; split; [done|set_solver]). }
    exists sent. split; [by apply update_second_call | done].
  - intros discountCode Hresp HchangedUntil HemptyUntil HusableFrom.
    assert (∃ sent, updateActions (data r) (fetched m r) = (Next sent, fetched m r)
                    ∧ last sent = Some (DiscountCodeSetValidUntilAction None))
      as (sent & Hsent & Hlast).
    { rewrite updateActions_blocks. unfold mbind, M_bind.
      rewrite changedValidFrom_run.
      destruct (HasChange valid_from (data r)).
      - destruct (bool_decide (0 < String.length (Get valid_from (data r)))) eqn:Hlen;
          [destruct (usable_length _ (HusableFrom I) Hlen) as [t ->]|];
          (rewrite Huntil by done; eexists; split; [done | apply last_snoc]).
      - rewrite Huntil by done. eexists. split; [done | apply last_snoc]. }
    exists sent. split; [by apply update_second_call | done].
Qed.

Lemma unset_validity_actions_witness :
  updateActions (helpers := sampleHelpers) unsetData (startRun unsetData)
  = (Next [DiscountCodeSetValidFromAction None; DiscountCodeSetValidUntilAction None],
     startRun unsetData).
Proof.
  destruct (unset_validity_actions (helpers := sampleHelpers) presentClient
              (startRun unsetData) []) as (_ & _ & Hboth & _).
  apply Hboth; reflexivity || exact I.
Defined.

(** *** Errors of the platform *)

Lemma read_result {helpers : Helpers} (m : Client) (r : Run) err :
  (m (calls r) (GetById (Id (data r)))).2 = Some err →
  (resourceDiscountCodeRead m r).1 = Diags (if notFound err then [] else FromErr err).
Proof. intros Herr. rewrite read_run. simpl. rewrite Herr. by destruct (notFound err). Qed.

Lemma read_gone_id {helpers : Helpers} (m : Client) (r : Run) err :
  (m (calls r) (GetById (Id (data r)))).2 = Some err →
  Id (data (resourceDiscountCodeRead m r).2)
  = if notFound err then EmptyString else Id (data r).
Proof. intros Herr. rewrite read_run. simpl. rewrite Herr. by destruct (notFound err). Qed.

(** C4, as the code has it: an error answering a call of the read or the
    update handler comes back as the diagnostics [diag.FromErr] makes of it,
    with the resource id kept, except a 404 error response answering the
    fetch of the read handler, run by itself or as the last step (the third
    call) of an update: then the handler clears the resource id and returns
    empty diagnostics. *)
Theorem sdk_errors_forwarded {helpers : Helpers} (m : Client) (r : Run) :
  (∀ i call discountCode err,
     issued (resourceDiscountCodeRead m) r !! i = Some (call, (discountCode, Some err)) →
     (resourceDiscountCodeRead m r).1
     = Diags (if notFound err then [] else FromErr err)
     ∧ Id (data (resourceDiscountCodeRead m r).2)
       = if notFound err then EmptyString else Id (data r))
  ∧ (∀ i call discountCode err,
       issued (resourceDiscountCodeUpdate m) r !! i
       = Some (call, (discountCode, Some err)) →
       (resourceDiscountCodeUpdate m r).1
       = Diags (if bool_decide (i = 2) && notFound err then [] else FromErr err)
       ∧ Id (data (resourceDiscountCodeUpdate m r).2)
         = if bool_decide (i = 2) && notFound err then EmptyString else Id (data r)).
Proof.
  split.
  - intros i call discountCode err. rewrite read_issued.
    destruct i as [|i]; [|done]. simpl. intros [= <- Hresp].
    split; [apply read_result | apply read_gone_id]; by rewrite Hresp.
  - intros i call discountCode err.
    destruct (update_paths m r)
      as [[-> Hfetch] | (fetchedCode & actions & Hfetch & Hactions & Hpost)].
    + destruct i as [|i]; [|done]. simpl. intros [= <- Hresp].
      split; [apply Hfetch; by rewrite Hresp|].
      rewrite (update_fetch_failed m r err); [done | by rewrite Hresp].
    + simpl in Hfetch, Hpost.
      destruct Hpost as [(err' & Hanswer & -> & Hdiags) | (Hanswer & -> & Hrun)].
      * destruct i as [|[|i]]; simpl; [| |done].
        -- intros [= <- Hresp]. congruence.
        -- intros [= <- Hresp]. rewrite Hresp in Hanswer. simpl in Hanswer.
           injection Hanswer as <-. split; [done|].
           assert ((m (calls (fetched m r)) (updateCall fetchedCode actions)).2
                   = Some err) as Hfailed by exact (f_equal snd Hresp).
           by destruct (update_post_failed m r _ _ _ Hfetch Hactions Hfailed)
             as (_ & _ & ->).
      * destruct i as [|[|[|i]]]; simpl; [| | |done].
        -- intros [= <- Hresp]. congruence.
        -- intros [= <- Hresp]. rewrite Hresp in Hanswer. done.
        -- intros [= <- Hresp]. rewrite Hrun.
           split; [apply read_result | rewrite read_gone_id with (err := err)];
             simpl; by rewrite ?Hresp.
Qed.

Lemma sdk_errors_forwarded_witness :
  (resourceDiscountCodeUpdate (helpers := sampleHelpers) goneClient
     (startRun unchangedData)).1
  = Diags (FromErr (PlatformError {| StatusCode := 404; Message := "Not Found" |}))
  ∧ Id (data (resourceDiscountCodeRead (helpers := sampleHelpers) goneClient
                (startRun unchangedData)).2) = EmptyString.
Proof.
  destruct (sdk_errors_forwarded (helpers := sampleHelpers) goneClient
              (startRun unchangedData)) as [Hread Hupdate].
  split.
  - apply (Hupdate 0 (GetById "dc-1") None). reflexivity.
  - apply (Hread 0 (GetById "dc-1") None
             (PlatformError {| StatusCode := 404; Message := "Not Found" |})).
    reflexivity.
Defined.

(** The claim C4 as it was stated fails: the fetch of the read handler
    answers with an error, a 404 error response, and the handler returns no
    diagnostic. *)
Lemma sdk_errors_counterexample :
  (goneClient (calls (startRun unchangedData)) (GetById (Id unchangedData))).2
  = Some (PlatformError {| StatusCode := 404; Message := "Not Found" |})
  ∧ (resourceDiscountCodeRead (helpers := sampleHelpers) goneClient
       (startRun unchangedData)).1 = Diags [].
Proof. split; reflexivity. Qed.

(** *** How often the platform is called *)

Lemma read_noRetry {helpers : Helpers} (m : Client) (r : Run) :
  noRetry (resourceDiscountCodeRead m) r.
Proof.
  intros before cr after. rewrite read_issued.
  destruct before as [|? [|? ?]]; intros ? _; by simplify_eq/=.
Qed.

Lemma delete_noRetry (m : Client) (r : Run) :
  noRetry (resourceDiscountCodeDelete m) r.
Proof.
  intros before cr after. rewrite delete_issued.
  destruct before as [|? [|? ?]]; intros ? _; by simplify_eq/=.
Qed.

Lemma update_noRetry {helpers : Helpers} (m : Client) (r : Run) :
  noRetry (resourceDiscountCodeUpdate m) r.
Proof.
  intros before cr after. unfold failed.
  destruct (update_paths m r)
    as [[-> _] | (discountCode & actions & Hfetch & _ & Hpost)].
  - destruct before as [|? [|? ?]]; intros ? _; by simplify_eq/=.
  - simpl in Hfetch, Hpost.
    destruct Hpost as [(err & _ & -> & _) | (Hanswer & -> & _)].
    + destruct before as [|? [|? [|? ?]]]; intros ? Hfailed; simplify_eq/=;
        try done; by rewrite Hfetch in Hfailed.
    + destruct before as [|? [|? [|? [|? ?]]]]; intros ? Hfailed; simplify_eq/=;
        try done; first [by rewrite Hfetch in Hfailed | by rewrite Hanswer in Hfailed].
Qed.

Lemma update_issued_calls {helpers : Helpers} (m : Client) (r : Run) :
  ∃ id input,
    1 ≤ length (issued (resourceDiscountCodeUpdate m) r) ≤ 3
    ∧ (issued (resourceDiscountCodeUpdate m) r).*1
      `prefix_of` [GetById (Id (data r)); PostUpdate id input; GetById (Id (data r))].
Proof.
  destruct (update_paths m r)
    as [[-> _] | (discountCode & actions & _ & _ & Hpost)].
  - exists EmptyString, {| Version := 0; Actions := [] |}. simpl. split; [lia|].
    by eexists.
  - exists (dcID discountCode),
      {| Version := dcVersion discountCode; Actions := actions |}.
    simpl in Hpost. destruct Hpost as [(err & _ & -> & _) | (_ & -> & _)]; simpl.
    + split; [lia|]. by eexists.
    + split; [lia|]. by exists [].
Qed.

(** With usable validity strings the create handler issues the posts of the
    retry loop and, when the last one gave a discount code, the fetch of the
    read handler. *)
Lemma create_issued {helpers : Helpers} {window : RetryWindow} (m : Client) (r : Run) :
  usable (Get valid_from (data r)) → usable (Get valid_until (data r)) →
  ∃ draft (attempts : list (Call * Response)) (resp : Response),
    let posts := attempts ++ [(PostDraft draft, resp)] in
    issued (resourceDiscountCodeCreate m) r
    = posts ++ match resp with
               | (Some discountCode, None) =>
                   [(GetById (dcID discountCode),
                     m (calls r ++ posts) (GetById (dcID discountCode)))]
               | _ => []
               end
    ∧ length attempts ≤ furtherAttempts Minute
    ∧ Forall (retriedPost draft) attempts
    ∧ (∀ err, resp.2 = Some err →
              Retryable (handleCommercetoolsError err) = true →
              length attempts = furtherAttempts Minute).
Proof.
  intros Hfrom Huntil.
  destruct (create_paths m r)
    as [(err & Hwhich & _)
       | (_ & _ & draft & attempts & resp & Hlen & Hretried & Hlast & Hrun)].
  { destruct Hwhich as [Hrej | [_ Hrej]]; by apply rejected_not_usable in Hrej. }
  exists draft, attempts, resp. split_and!; [|done..].
  apply issued_app. simpl in Hrun.
  destruct resp as [[discountCode|] [err|]]; simpl in *;
    try (rewrite Hrun; simpl; by rewrite ?app_nil_r).
  rewrite Hrun, read_calls. simpl. by rewrite <- app_assoc.
Qed.

Lemma retriedPost_calls {helpers : Helpers} draft (attempts : list (Call * Response)) :
  Forall (retriedPost draft) attempts →
  attempts.*1 = replicate (length attempts) (PostDraft draft).
Proof.
  induction 1 as [|cr attempts [Hcall _] _ IH]; [done|].
  by rewrite fmap_cons, Hcall, IH.
Qed.

(** C5, as the code has it: the read and the delete handler issue exactly
    one remote call on every path.  The update handler issues one to three:
    its fetch; then the update post, exactly when the fetch gave a discount
    code and the actions could be built; then the fetch of the read handler
    it ends with, exactly when the post succeeded.  The create handler issues
    none when a validity time is rejected; otherwise it issues the create
    post once per attempt of the retry loop, at least once and at most as
    often as the one-minute window allows, and then the fetch of the read
    handler it ends with, exactly when the last post gave a discount code. *)
Theorem remote_calls_per_handler {helpers : Helpers} {window : RetryWindow}
    (m : Client) (r : Run) :
  issued (resourceDiscountCodeRead m) r
  = [(GetById (Id (data r)), m (calls r) (GetById (Id (data r))))]
  ∧ issued (resourceDiscountCodeDelete m) r
    = [(DeleteById (Id (data r)) (Get version (data r)) true,
        m (calls r) (DeleteById (Id (data r)) (Get version (data r)) true))]
  ∧ (let get := GetById (Id (data r)) in
     let fetch := (get, m (calls r) get) in
     (issued (resourceDiscountCodeUpdate m) r = [fetch]
      ∧ ¬ ∃ discountCode actions,
            fetch.2 = (Some discountCode, None)
            ∧ updateActions (data r) (fetched m r) = (Next actions, fetched m r))
     ∨ ∃ discountCode actions,
         fetch.2 = (Some discountCode, None)
         ∧ updateActions (data r) (fetched m r) = (Next actions, fetched m r)
         ∧ let call := updateCall discountCode actions in
           let post := (call, m (calls (fetched m r)) call) in
           (post.2.2 ≠ None
            ∧ issued (resourceDiscountCodeUpdate m) r = [fetch; post])
           ∨ (post.2.2 = None
              ∧ issued (resourceDiscountCodeUpdate m) r
                = [fetch; post;
                   (get, m (calls (posted m r discountCode actions)) get)]))
  ∧ 1 ≤ length (issued (resourceDiscountCodeUpdate m) r) ≤ 3
  ∧ ((∃ e, rejected (Get valid_from (data r)) e)
     ∨ (∃ e, rejected (Get valid_until (data r)) e) →
     issued (resourceDiscountCodeCreate m) r = [])
  ∧ (usable (Get valid_from (data r)) → usable (Get valid_until (data r)) →
     ∃ draft (attempts : list (Call * Response)) (resp : Response),
       let posts := attempts ++ [(PostDraft draft, resp)] in
       issued (resourceDiscountCodeCreate m) r
       = posts ++ match resp with
                  | (Some discountCode, None) =>
                      [(GetById (dcID discountCode),
                        m (calls r ++ posts) (GetById (dcID discountCode)))]
                  | _ => []
                  end
       ∧ Forall (retriedPost draft) attempts
       ∧ length attempts ≤ furtherAttempts Minute).
Proof.
  split_and!.
  - apply read_issued.
  - apply delete_issued.
  - apply update_issued_exact.
  - destruct (update_issued_calls m r) as (_ & _ & Hlen & _). lia.
  - destruct (update_issued_calls m r) as (_ & _ & Hlen & _). lia.
  - intros Hrej.
    destruct (create_paths m r) as [(err & _ & Hrun) | (Hfrom & Huntil & _)].
    + unfold issued. rewrite Hrun. simpl. by rewrite drop_all.
    + destruct Hrej as [[e He] | [e He]]; by apply rejected_not_usable in He.
  - intros Hfrom Huntil.
    destruct (create_issued m r Hfrom Huntil)
      as (draft & attempts & resp & Hissued & Hlen & Hretried & _).
    by exists draft, attempts, resp.
Qed.

Lemma remote_calls_per_handler_witness :
  issued (resourceDiscountCodeCreate (helpers := sampleHelpers) (window := sampleWindow)
            presentClient) (startRun badFromData) = []
  ∧ ∃ draft (attempts : list (Call * Response)) (resp : Response),
      issued (resourceDiscountCodeCreate (helpers := sampleHelpers)
                (window := sampleWindow) flakyClient) (startRun unchangedData)
      = (attempts ++ [(PostDraft draft, resp)])
        ++ match resp with
           | (Some discountCode, None) =>
               [(GetById (dcID discountCode),
                 flakyClient (calls (startRun unchangedData)
                              ++ attempts ++ [(PostDraft draft, resp)])
                   (GetById (dcID discountCode)))]
           | _ => []
           end.
Proof.
  split.
  - destruct (remote_calls_per_handler (helpers := sampleHelpers)
                (window := sampleWindow) presentClient (startRun badFromData))
      as (_ & _ & _ & _ & Hrejected & _).
    apply Hrejected. left. exists (GoError "cannot parse tomorrow").
    split; [vm_compute; lia | reflexivity].
  - destruct (remote_calls_per_handler (helpers := sampleHelpers)
                (window := sampleWindow) flakyClient (startRun unchangedData))
      as (_ & _ & _ & _ & _ & Husable).
    destruct Husable as (draft & attempts & resp & Hissued & _); [by left..|].
    by exists draft, attempts, resp.
Defined.

(** The claim C5 as it was stated fails: a successful update issues three
    remote calls and a successful create two, and a create with a rejected
    validity time issues none. *)
Lemma remote_calls_counterexample :
  length (issued (resourceDiscountCodeUpdate (helpers := sampleHelpers) presentClient)
            (startRun unchangedData)) = 3
  ∧ length (issued (resourceDiscountCodeCreate (helpers := sampleHelpers)
                      (window := sampleWindow) presentClient)
              (startRun unchangedData)) = 2
  ∧ length (issued (resourceDiscountCodeCreate (helpers := sampleHelpers)
                      (window := sampleWindow) presentClient)
              (startRun badFromData)) = 0.
Proof. split_and!; by vm_compute. Qed.

(** *** Failure recovery *)

(** C2, as the code has it: only the create handler tries a remote call
    again.  With usable validity strings it issues the create post under the
    retry loop: every post but the last failed with an error
    [handleCommercetoolsError] calls retryable, there are at most as many
    further attempts as the one-minute window allows, and the loop gives up on
    a retryable failure only when the window is used up; the only call after
    the loop is the fetch of the read handler, when the last post gave a
    discount code.  The read, update and delete handlers never issue a call
    after a failed one.  Read and delete issue their one call exactly once.
    Update issues each of its calls at most once: the fetch always, the post
    exactly when the fetch gave a discount code and the actions could be
    built, the fetch of the read handler exactly when the post succeeded. *)
Theorem only_create_retries {helpers : Helpers} {window : RetryWindow}
    (m : Client) (r : Run) :
  (noRetry (resourceDiscountCodeRead m) r
   ∧ issued (resourceDiscountCodeRead m) r
     = [(GetById (Id (data r)), m (calls r) (GetById (Id (data r))))])
  ∧ (noRetry (resourceDiscountCodeUpdate m) r
     ∧ let get := GetById (Id (data r)) in
       let fetch := (get, m (calls r) get) in
       (issued (resourceDiscountCodeUpdate m) r = [fetch]
        ∧ ¬ ∃ discountCode actions,
              fetch.2 = (Some discountCode, None)
              ∧ updateActions (data r) (fetched m r) = (Next actions, fetched m r))
       ∨ ∃ discountCode actions,
           fetch.2 = (Some discountCode, None)
           ∧ updateActions (data r) (fetched m r) = (Next actions, fetched m r)
           ∧ let call := updateCall discountCode actions in
             let post := (call, m (calls (fetched m r)) call) in
             (post.2.2 ≠ None
              ∧ issued (resourceDiscountCodeUpdate m) r = [fetch; post])
             ∨ (post.2.2 = None
                ∧ issued (resourceDiscountCodeUpdate m) r
                  = [fetch; post;
                     (get, m (calls (posted m r discountCode actions)) get)]))
  ∧ (noRetry (resourceDiscountCodeDelete m) r
     ∧ issued (resourceDiscountCodeDelete m) r
       = [(DeleteById (Id (data r)) (Get version (data r)) true,
           m (calls r) (DeleteById (Id (data r)) (Get version (data r)) true))])
  ∧ (usable (Get valid_from (data r)) → usable (Get valid_until (data r)) →
     ∃ draft (attempts : list (Call * Response)) (resp : Response),
       let posts := attempts ++ [(PostDraft draft, resp)] in
       issued (resourceDiscountCodeCreate m) r
       = posts ++ match resp with
                  | (Some discountCode, None) =>
                      [(GetById (dcID discountCode),
                        m (calls r ++ posts) (GetById (dcID discountCode)))]
                  | _ => []
                  end
       ∧ Forall (retriedPost draft) attempts
       ∧ length attempts ≤ furtherAttempts Minute
       ∧ (∀ err, resp.2 = Some err →
                 Retryable (handleCommercetoolsError err) = true →
                 length attempts = furtherAttempts Minute))
  ∧ Minute = (60 * 1000000000)%Z.
Proof.
  split; [|split; [|split; [|split]]].
  - split; [exact (read_noRetry m r) | apply read_issued].
  - split; [exact (update_noRetry m r) | apply update_issued_exact].
  - split; [exact (delete_noRetry m r) | apply delete_issued].
  - intros Hfrom Huntil.
    destruct (create_issued m r Hfrom Huntil)
      as (draft & attempts & resp & Hissued & Hlen & Hretried & Hlast).
    by exists draft, attempts, resp.
  - reflexivity.
Qed.

Lemma only_create_retries_witness :
  ∃ draft (attempts : list (Call * Response)) (resp : Response),
    issued (resourceDiscountCodeCreate (helpers := sampleHelpers) (window := sampleWindow)
              flakyClient) (startRun unchangedData)
    = (attempts ++ [(PostDraft draft, resp)])
      ++ match resp with
         | (Some discountCode, None) =>
             [(GetById (dcID discountCode),
               flakyClient (calls (startRun unchangedData)
                            ++ attempts ++ [(PostDraft draft, resp)])
                 (GetById (dcID discountCode)))]
         | _ => []
         end
    ∧ Forall (retriedPost (helpers := sampleHelpers) draft) attempts.
Proof.
  destruct (only_create_retries (helpers := sampleHelpers) (window := sampleWindow)
              flakyClient (startRun unchangedData)) as (_ & _ & _ & Hcreate & _).
  destruct Hcreate as (draft & attempts & resp & Hissued & Hretried & _); [by left..|].
  by exists draft, attempts, resp.
Defined.

(** The claim C2 as it was stated fails for the update handler, whose remote
    calls are not each issued exactly once: when its fetch fails the post is
    never issued, and on success the same Get request is issued twice. *)
Lemma only_create_retries_counterexample :
  (issued (resourceDiscountCodeUpdate (helpers := sampleHelpers) goneClient)
     (startRun unchangedData)).*1
  = [GetById "dc-1"]
  ∧ (issued (resourceDiscountCodeUpdate (helpers := sampleHelpers) presentClient)
       (startRun unchangedData)).*1
    = [GetById "dc-1"; PostUpdate "dc-1" {| Version := 3; Actions := [] |};
       GetById "dc-1"].
Proof. split; by vm_compute. Qed.

(** ** Further properties of the handlers *)

(** *** Read, when the discount code is found *)

(** X1: when the platform answers the read with a discount code, the read
    handler returns no diagnostics, keeps the resource id and the prior
    state, and overwrites every planned field with the remote value: version
    and code as they are, the cart discounts as the ids of the references in
    their order, the validity times through [marshallTime], and the zero
    value where the remote pointer is nil. *)
Theorem read_found_mirrors_remote {helpers : Helpers} (m : Client) (r : Run)
    (discountCode : DiscountCode) :
  m (calls r) (GetById (Id (data r))) = (Some discountCode, None) →
  let out := resourceDiscountCodeRead m r in
  out.1 = Diags []
  ∧ Id (data out.2) = Id (data r)
  ∧ prior (data out.2) = prior (data r)
  ∧ Get version (data out.2) = dcVersion discountCode
  ∧ Get code (data out.2) = dcCode discountCode
  ∧ Get cart_discounts (data out.2) = RefID <$> dcCartDiscounts discountCode
  ∧ Get groups (data out.2) = dcGroups discountCode
  ∧ Get is_active (data out.2) = dcIsActive discountCode
  ∧ Get valid_from (data out.2) = marshallTime (dcValidFrom discountCode)
  ∧ Get valid_until (data out.2) = marshallTime (dcValidUntil discountCode)
  ∧ Get name (data out.2) = default ∅ (dcName discountCode)
  ∧ Get description (data out.2) = default ∅ (dcDescription discountCode)
  ∧ Get predicate (data out.2) = default EmptyString (dcCartPredicate discountCode)
  ∧ Get max_applications (data out.2) = default 0%Z (dcMaxApplications discountCode)
  ∧ Get max_applications_per_customer (data out.2)
    = default 0%Z (dcMaxApplicationsPerCustomer discountCode).
Proof.
  intros Hresp out. subst out. rewrite read_run. simpl. rewrite Hresp. simpl.
  unfold Get. simpl. rewrite marshallDiscountCodeCartDiscounts_map.
  by split_and!.
Qed.

Lemma read_found_mirrors_remote_witness :
  Get cart_discounts
    (data (resourceDiscountCodeRead (helpers := sampleHelpers) presentClient
             (startRun badFromData)).2) = ["cd-1"; "cd-2"]
  ∧ Get valid_from
      (data (resourceDiscountCodeRead (helpers := sampleHelpers) presentClient
               (startRun badFromData)).2) = EmptyString.
Proof.
  destruct (read_found_mirrors_remote (helpers := sampleHelpers) presentClient
              (startRun badFromData) sampleCode eq_refl)
    as (_ & _ & _ & _ & _ & Hdiscounts & _ & _ & Hfrom & _).
  split; [exact Hdiscounts | exact Hfrom].
Defined.

(** X2: reading is idempotent on a found discount code: when a second read
    is answered with the same discount code as the first, it returns no
    diagnostics and leaves the resource data as the first read left them. *)
Theorem read_idempotent {helpers : Helpers} (m : Client) (r : Run)
    (discountCode : DiscountCode) :
  let once := (resourceDiscountCodeRead m r).2 in
  m (calls r) (GetById (Id (data r))) = (Some discountCode, None) →
  m (calls once) (GetById (Id (data once))) = (Some discountCode, None) →
  (resourceDiscountCodeRead m once).1 = Diags []
  ∧ data (resourceDiscountCodeRead m once).2 = data once.
Proof.
  intros once Hfirst Hsecond.
  rewrite (read_run m once). simpl. rewrite Hsecond. simpl. split; [done|].
  subst once. rewrite read_run. simpl. rewrite Hfirst. reflexivity.
Qed.

Lemma read_idempotent_witness :
  data (resourceDiscountCodeRead (helpers := sampleHelpers) presentClient
          (resourceDiscountCodeRead (helpers := sampleHelpers) presentClient
             (startRun badFromData)).2).2
  = data (resourceDiscountCodeRead (helpers := sampleHelpers) presentClient
            (startRun badFromData)).2.
Proof.
  apply (read_idempotent (helpers := sampleHelpers) presentClient
           (startRun badFromData) sampleCode); reflexivity.
Defined.

(** *** The marshalling helpers, position by position *)

(** X3: [marshallDiscountCodeCartDiscounts] returns as many strings as it is
    given references, and the string at each position is the id of the
    reference at that position; no references give no strings. *)
Theorem marshall_cart_discounts_positions (values : list CartDiscountReference) :
  length (marshallDiscountCodeCartDiscounts values) = length values
  ∧ (∀ i, marshallDiscountCodeCartDiscounts values !! i = RefID <$> values !! i)
  ∧ (values = [] ↔ marshallDiscountCodeCartDiscounts values = []).
Proof.
  rewrite marshallDiscountCodeCartDiscounts_map. split_and!.
  - apply length_fmap.
  - intros i. apply list_lookup_fmap.
  - split; [by intros -> | apply fmap_nil_inv].
Qed.

(** X4: [unmarshallDiscountCodeCartDiscounts] refers to every configured cart
    discount by id alone: the identifier at each position has the id of that
    position set and no key. *)
Theorem unmarshall_cart_discounts_by_id (d : ResourceData) :
  (∀ i, unmarshallDiscountCodeCartDiscounts d !! i
        = (λ id, {| ID := Some id; Key := None |}) <$> Get cart_discounts d !! i)
  ∧ Forall (λ identifier, is_Some (ID identifier) ∧ Key identifier = None)
           (unmarshallDiscountCodeCartDiscounts d)
  ∧ (Get cart_discounts d = [] ↔ unmarshallDiscountCodeCartDiscounts d = []).
Proof.
  rewrite unmarshallDiscountCodeCartDiscounts_map. split_and!.
  - intros i. apply list_lookup_fmap.
  - apply Forall_fmap, Forall_forall. intros id _. simpl. by eauto.
  - split; [by intros -> | apply fmap_nil_inv].
Qed.

(** *** Update: what is sent and what comes back *)

(** X5: the update handler has a block for ten fields and none for [code]:
    when none of the ten changed (say only [code] did) and the fetch gave a
    discount code, it builds the empty action list and still posts it, to the
    fetched id with the fetched version. *)
Theorem update_without_changes_posts_no_actions {helpers : Helpers} (m : Client)
    (r : Run) (discountCode : DiscountCode) :
  (∀ f, changed (data r) f = false) →
  m (calls r) (GetById (Id (data r))) = (Some discountCode, None) →
  updateActions (data r) (fetched m r) = (Next [], fetched m r)
  ∧ issued (resourceDiscountCodeUpdate m) r !! 1
    = Some (PostUpdate (dcID discountCode)
              {| Version := dcVersion discountCode; Actions := [] |},
            m (calls (fetched m r))
              (PostUpdate (dcID discountCode)
                 {| Version := dcVersion discountCode; Actions := [] |})).
Proof.
  intros Hunchanged Hresp.
  destruct (updateActions_fields (data r) (fetched m r)) as (actions & Hactions & Hfields).
  { intros Hchanged. pose proof (Hunchanged FValidFrom) as Hno. simpl in Hno.
    by rewrite Hno in Hchanged. }
  { intros Hchanged. pose proof (Hunchanged FValidUntil) as Hno. simpl in Hno.
    by rewrite Hno in Hchanged. }
  assert (actions = []) as ->.
  { apply (fmap_nil_inv fieldOf). rewrite Hfields. unfold updatedFields.
    rewrite !filter_changed_cons, !Hunchanged. by rewrite filter_nil. }
  split; [done|]. by apply update_second_call.
Qed.

Lemma update_without_changes_posts_no_actions_witness :
  code (prior codeChangedData) ≠ code (planned codeChangedData)
  ∧ issued (resourceDiscountCodeUpdate (helpers := sampleHelpers) presentClient)
      (startRun codeChangedData) !! 1
    = Some (PostUpdate "dc-1" {| Version := 3; Actions := [] |}, (Some sampleCode, None)).
Proof.
  split; [discriminate|].
  apply (update_without_changes_posts_no_actions (helpers := sampleHelpers)
           presentClient (startRun codeChangedData) sampleCode).
  - intros f. by destruct f.
  - reflexivity.
Defined.

(** X6: when the fetch of the update handler answers with neither a discount
    code nor an error, the handler panics on [discountCode.Version] right
    after that one call, with the resource data untouched; the read handler
    given the same answer returns no diagnostics and clears the id. *)
Theorem update_fetch_nil_panics {helpers : Helpers} (m : Client) (r : Run) :
  m (calls r) (GetById (Id (data r))) = (None, None) →
  (resourceDiscountCodeUpdate m r).1 = Panic
  ∧ length (issued (resourceDiscountCodeUpdate m) r) = 1
  ∧ data (resourceDiscountCodeUpdate m r).2 = data r
  ∧ (resourceDiscountCodeRead m r).1 = Diags []
  ∧ Id (data (resourceDiscountCodeRead m r).2) = EmptyString.
Proof.
  intros Hresp. rewrite (update_fetch_nil m r Hresp). split_and!; [done| |done|..].
  - destruct (update_paths m r) as [[-> _] | (discountCode & ? & Hfetch & _)]; [done|].
    simpl in Hfetch. congruence.
  - rewrite read_run. simpl. by rewrite Hresp.
  - rewrite read_run. simpl. by rewrite Hresp.
Qed.

Lemma update_fetch_nil_panics_witness :
  (resourceDiscountCodeUpdate (helpers := sampleHelpers) emptyClient
     (startRun unchangedData)).1 = Panic.
Proof.
  apply (update_fetch_nil_panics (helpers := sampleHelpers) emptyClient
           (startRun unchangedData)).
  reflexivity.
Defined.

(** X7: a 404 error response means different things to the two handlers:
    answering the fetch of the update handler it is an error like any other
    (diagnostics, id kept, nothing posted), answering the read handler it
    clears the id without diagnostics. *)
Theorem update_fetch_gone_is_error {helpers : Helpers} (m : Client) (r : Run) err :
  (m (calls r) (GetById (Id (data r)))).2 = Some err →
  notFound err = true →
  ((resourceDiscountCodeUpdate m r).1 = Diags (FromErr err)
   ∧ data (resourceDiscountCodeUpdate m r).2 = data r
   ∧ length (issued (resourceDiscountCodeUpdate m) r) = 1)
  ∧ ((resourceDiscountCodeRead m r).1 = Diags []
     ∧ Id (data (resourceDiscountCodeRead m r).2) = EmptyString).
Proof.
  intros Herr Hgone. rewrite (update_fetch_failed m r err Herr). split.
  - split_and!; [done..|].
    destruct (update_paths m r) as [[-> _] | (discountCode & ? & Hfetch & _)]; [done|].
    simpl in Hfetch. rewrite Hfetch in Herr. done.
  - rewrite read_run. simpl. by rewrite Herr, Hgone.
Qed.

Lemma update_fetch_gone_is_error_witness :
  (resourceDiscountCodeUpdate (helpers := sampleHelpers) goneClient
     (startRun unchangedData)).1
  = Diags (FromErr (PlatformError {| StatusCode := 404; Message := "Not Found" |}))
  ∧ (resourceDiscountCodeRead (helpers := sampleHelpers) goneClient
       (startRun unchangedData)).1 = Diags [].
Proof.
  destruct (update_fetch_gone_is_error (helpers := sampleHelpers) goneClient
              (startRun unchangedData)
              (PlatformError {| StatusCode := 404; Message := "Not Found" |})
              eq_refl eq_refl) as [(Hupdate & _) (Hread & _)].
  split; [exact Hupdate | exact Hread].
Defined.

(** X8: the update handler parses a validity time only after its fetch.
    When the fetch gave a discount code and a changed [valid_from] is
    rejected, or [valid_from] passes and a changed [valid_until] is rejected,
    the handler returns the diagnostics of that parse error having issued the
    fetch and nothing else; resource data and log are untouched. *)
Theorem update_rejected_time {helpers : Helpers} (m : Client) (r : Run)
    (discountCode : DiscountCode) err :
  m (calls r) (GetById (Id (data r))) = (Some discountCode, None) →
  (HasChange valid_from (data r) ∧ rejected (Get valid_from (data r)) err)
  ∨ ((HasChange valid_from (data r) → usable (Get valid_from (data r)))
     ∧ HasChange valid_until (data r) ∧ rejected (Get valid_until (data r)) err) →
  resourceDiscountCodeUpdate m r = (Diags (FromErr err), fetched m r)
  ∧ issued (resourceDiscountCodeUpdate m) r
    = [(GetById (Id (data r)), (Some discountCode, None))].
Proof.
  intros Hresp Hrej.
  assert (updateActions (data r) (fetched m r) = (Return (FromErr err), fetched m r))
    as Hactions.
  { rewrite updateActions_blocks. unfold mbind, M_bind. rewrite changedValidFrom_run.
    destruct Hrej as [[Hchanged [Hlen Hparse]] | (Hfrom & Hchanged & [Hlen Hparse])].
    - destruct (HasChange valid_from (data r)); [|done].
      by rewrite (bool_decide_eq_true_2 _ Hlen), Hparse.
    - assert (changedValidUntil (data r)
              = λ acts r', (Return (FromErr err), r')) as Huntil.
      { unfold changedValidUntil.
        destruct (HasChange valid_until (data r)); [|done].
        by rewrite (bool_decide_eq_true_2 _ Hlen), Hparse. }
      destruct (HasChange valid_from (data r)).
      + destruct (bool_decide (0 < String.length (Get valid_from (data r)))) eqn:HlenFrom;
          [destruct (usable_length _ (Hfrom I) HlenFrom) as [t ->]|];
          by rewrite Huntil.
      + by rewrite Huntil. }
  rewrite (update_time_rejected m r _ _ Hresp Hactions). split; [done|].
  apply issued_app. rewrite (update_time_rejected m r _ _ Hresp Hactions).
  unfold fetched. simpl. by rewrite Hresp.
Qed.

Lemma update_rejected_time_witness :
  resourceDiscountCodeUpdate (helpers := sampleHelpers) presentClient
    (startRun badFromData)
  = (Diags (FromErr (GoError "cannot parse tomorrow")),
     fetched presentClient (startRun badFromData)).
Proof.
  apply (update_rejected_time (helpers := sampleHelpers) presentClient
           (startRun badFromData) sampleCode (GoError "cannot parse tomorrow")).
  - reflexivity.
  - left. split; [exact I|]. split; [vm_compute; lia | reflexivity].
Defined.

(** X9: after a successful post the update handler discards the answer of
    the post; its outcome is that of the final fetch.  A found discount code
    overwrites the planned fields and gives no diagnostics; a 404 error
    response or an empty answer clears the id without diagnostics; any other
    error is returned with the resource data untouched.  Three calls were
    issued, and the prior state is never written. *)
Theorem update_outcome_follows_final_fetch {helpers : Helpers} (m : Client) (r : Run)
    (discountCode : DiscountCode) (actions : list DiscountCodeUpdateAction) :
  m (calls r) (GetById (Id (data r))) = (Some discountCode, None) →
  updateActions (data r) (fetched m r) = (Next actions, fetched m r) →
  (m (calls (fetched m r)) (updateCall discountCode actions)).2 = None →
  let answer := m (calls (posted m r discountCode actions)) (GetById (Id (data r))) in
  let out := resourceDiscountCodeUpdate m r in
  length (issued (resourceDiscountCodeUpdate m) r) = 3
  ∧ prior (data out.2) = prior (data r)
  ∧ match answer.2 with
    | Some err =>
        if notFound err
        then out.1 = Diags [] ∧ Id (data out.2) = EmptyString
        else out.1 = Diags (FromErr err) ∧ data out.2 = data r
    | None =>
        match answer.1 with
        | None => out.1 = Diags [] ∧ Id (data out.2) = EmptyString
        | Some found =>
            out.1 = Diags []
            ∧ Id (data out.2) = Id (data r)
            ∧ planned (data out.2) = setFromDiscountCode found (planned (data r))
        end
    end.
Proof.
  intros Hresp Hactions Hpost answer out. subst out.
  split.
  { destruct (update_paths m r)
      as [[Hissued _] | (discountCode' & actions' & Hfetch & Hactions' & Hpath)].
    - pose proof (update_second_call m r _ _ Hresp Hactions) as Hsecond.
      by rewrite Hissued in Hsecond.
    - simpl in Hfetch. rewrite Hresp in Hfetch. injection Hfetch as <-.
      rewrite Hactions in Hactions'. injection Hactions' as <-.
      destruct Hpath as [(err & Herr & _) | (_ & -> & _)]; [|done].
      assert (Some err = None) as [=]. rewrite <- Herr, <- Hpost. reflexivity. }
  rewrite (update_posted m r _ _ Hresp Hactions Hpost), read_run. cbv zeta.
  change (m (calls (posted m r discountCode actions))
            (GetById (Id (data (posted m r discountCode actions))))) with answer.
  destruct answer as [[found|] [err|]]; simpl;
    try destruct (notFound err); by simpl.
Qed.

Lemma update_outcome_follows_final_fetch_witness :
  length (issued (resourceDiscountCodeUpdate (helpers := sampleHelpers) presentClient)
            (startRun unsetData)) = 3.
Proof.
  apply (update_outcome_follows_final_fetch (helpers := sampleHelpers) presentClient
           (startRun unsetData) sampleCode
           [DiscountCodeSetValidFromAction None; DiscountCodeSetValidUntilAction None]);
    reflexivity.
Defined.

(** *** Create: the posts and what follows them *)

(** The retry loop around the create post, with the answers traced back to
    the client. *)
Lemma retry_createAttempt_trace {helpers : Helpers} (m : Client) draft (n : nat)
    discountCode (r : Run) :
  ∃ (attempts : list (Call * Response)) (resp : Response),
    retry n (createAttempt m draft) discountCode r
    = (Next (resp.1, reported <$> resp.2),
       attempted r (attempts ++ [(PostDraft draft, resp)]))
    ∧ length attempts ≤ n
    ∧ Forall (retriedPost draft) attempts
    ∧ (∀ err, resp.2 = Some err →
              Retryable (handleCommercetoolsError err) = true → length attempts = n)
    ∧ Forall (fromClient m) (attempts ++ [(PostDraft draft, resp)])
    ∧ (attempts ++ [(PostDraft draft, resp)]) !! 0
      = Some (PostDraft draft, m (calls r) (PostDraft draft)).
Proof.
  revert discountCode r. induction n as [|n IH]; intros discountCode r.
  - exists [], (m (calls r) (PostDraft draft)). simpl.
    unfold mbind, M_bind, mret, M_ret. rewrite createAttempt_run. simpl.
    split_and!; [|done..| |done].
    + destruct (m (calls r) (PostDraft draft)) as [created_code [err|]]; simpl; [|done].
      by destruct (Retryable (handleCommercetoolsError err)).
    + repeat constructor. by exists (calls r).
  - simpl. unfold mbind, M_bind, mret, M_ret. rewrite createAttempt_run. simpl.
    destruct (m (calls r) (PostDraft draft)) as [created_code [err|]] eqn:Hresp; simpl.
    + destruct (Retryable (handleCommercetoolsError err)) eqn:Hretry.
      * destruct (IH created_code
                    (attempted r [(PostDraft draft, (created_code, Some err))]))
          as (attempts & resp & Hrun & Hlen & Hretried & Hlast & Hclient & _).
        exists ((PostDraft draft, (created_code, Some err)) :: attempts), resp.
        split_and!; [| simpl; lia | | | | done].
        -- etrans; [exact Hrun|]. unfold attempted. simpl. by rewrite <- app_assoc.
        -- constructor; [|done]. split; [done|]. by exists err.
        -- intros err' Herr' Hretry'. simpl. by rewrite (Hlast err' Herr' Hretry').
        -- simpl. constructor; [|done]. exists (calls r). simpl. by rewrite Hresp.
      * exists [], (created_code, Some err). simpl.
        split_and!; [done | lia | done | | | done].
        -- intros err' [= <-]. congruence.
        -- repeat constructor. exists (calls r). simpl. by rewrite Hresp.
    + exists [], (created_code, None). simpl.
      split_and!; [done | lia | done | done | | done].
      repeat constructor. exists (calls r). simpl. by rewrite Hresp.
Qed.

(** The create handler once the draft is built. *)
Lemma create_with_draft {helpers : Helpers} {window : RetryWindow} (m : Client)
    (r : Run) draft :
  createDraft (data r) r = (Next draft, r) →
  ∃ (attempts : list (Call * Response)) (resp : Response),
    let posts := attempts ++ [(PostDraft draft, resp)] in
    length attempts ≤ furtherAttempts Minute
    ∧ Forall (retriedPost draft) attempts
    ∧ (∀ err, resp.2 = Some err →
              Retryable (handleCommercetoolsError err) = true →
              length attempts = furtherAttempts Minute)
    ∧ Forall (fromClient m) posts
    ∧ posts !! 0 = Some (PostDraft draft, m (calls r) (PostDraft draft))
    ∧ resourceDiscountCodeCreate m r
      = match resp.2, resp.1 with
        | Some err, _ => (Diags (FromErr (reported err)), attempted r posts)
        | None, None => (Diags (Errorf "No discount code created"), attempted r posts)
        | None, Some discountCode =>
            resourceDiscountCodeRead m (created r posts discountCode)
        end.
Proof.
  intros Hdraft.
  destruct (retry_createAttempt_trace m draft (furtherAttempts (1 * Minute)%Z) None r)
    as (attempts & resp & Hrun & Hlen & Hretried & Hlast & Hclient & Hfirst).
  exists attempts, resp. split_and!; [done..|].
  unfold resourceDiscountCodeCreate, handler, mbind, M_bind, mret, M_ret. simpl.
  rewrite Hdraft. unfold RetryContext. rewrite Hrun.
  destruct resp as [[discountCode|] [err|]]; simpl; try done.
  unfold return_call, created. simpl.
  by destruct (resourceDiscountCodeRead m _) as [[diags|] r'].
Qed.

(** The posts of the create handler and the fetch that may follow them. *)
Lemma create_with_draft_issued {helpers : Helpers} {window : RetryWindow} (m : Client)
    (r : Run) (posts : list (Call * Response)) :
  (∃ diags, resourceDiscountCodeCreate m r = (Diags diags, attempted r posts)) →
  issued (resourceDiscountCodeCreate m) r = posts.
Proof. intros [diags Hrun]. apply issued_app. by rewrite Hrun. Qed.

Lemma usable_draft {helpers : Helpers} (d : ResourceData) (r : Run) :
  usable (Get valid_from d) → usable (Get valid_until d) →
  ∃ draft, createDraft d r = (Next draft, r).
Proof.
  intros Hfrom Huntil.
  destruct (createDraft_cases d r) as [(draft & Hdraft & _) | (err & _ & Hrej)];
    [by exists draft|].
  destruct Hrej as [Hrej | [_ Hrej]]; by apply rejected_not_usable in Hrej.
Qed.

(** When the first answer is not a retryable failure the loop ends with it. *)
Lemma create_single_post {helpers : Helpers} {window : RetryWindow} (m : Client)
    (r : Run) draft :
  createDraft (data r) r = (Next draft, r) →
  let first := m (calls r) (PostDraft draft) in
  ¬ retriedPost draft (PostDraft draft, first) →
  resourceDiscountCodeCreate m r
  = match first.2, first.1 with
    | Some err, _ =>
        (Diags (FromErr (reported err)), attempted r [(PostDraft draft, first)])
    | None, None =>
        (Diags (Errorf "No discount code created"),
         attempted r [(PostDraft draft, first)])
    | None, Some discountCode =>
        resourceDiscountCodeRead m (created r [(PostDraft draft, first)] discountCode)
    end.
Proof.
  intros Hdraft first Hfinal.
  destruct (create_with_draft m r draft Hdraft)
    as (attempts & resp & _ & Hretried & _ & _ & Hfirst & Hrun).
  destruct attempts as [|attempt attempts].
  - simpl in Hfirst. injection Hfirst as ->. exact Hrun.
  - simpl in Hfirst. injection Hfirst as ->.
    by apply Forall_cons_1 in Hretried as [Hretried _].
Qed.

(** X10: with validity strings that are empty or parse, when every answer of
    the platform is a failure that [handleCommercetoolsError] calls
    retryable, the create handler posts the same draft once and then once
    more for every further attempt the one-minute window allows and issues
    nothing else; it returns the diagnostics of the error the retry loop
    reports for the answer to the last of these posts, and leaves the
    resource data untouched. *)
Theorem create_exhausts_window {helpers : Helpers} {window : RetryWindow}
    (m : Client) (r : Run) :
  usable (Get valid_from (data r)) → usable (Get valid_until (data r)) →
  (∀ history call, ∃ err, (m history call).2 = Some err
                          ∧ Retryable (handleCommercetoolsError err) = true) →
  ∃ draft (lastAnswer : Response) err,
    (issued (resourceDiscountCodeCreate m) r).*1
    = replicate (S (furtherAttempts Minute)) (PostDraft draft)
    ∧ last (issued (resourceDiscountCodeCreate m) r) = Some (PostDraft draft, lastAnswer)
    ∧ (∃ history, lastAnswer = m history (PostDraft draft))
    ∧ lastAnswer.2 = Some err
    ∧ (resourceDiscountCodeCreate m r).1
      = Diags (FromErr (Err (handleCommercetoolsError err)))
    ∧ data (resourceDiscountCodeCreate m r).2 = data r.
Proof.
  intros Hfrom Huntil Hfails.
  destruct (usable_draft (data r) r Hfrom Huntil) as [draft Hdraft].
  destruct (create_with_draft m r draft Hdraft)
    as (attempts & resp & _ & Hretried & Hlast & Hclient & _ & Hrun).
  apply Forall_app in Hclient as [_ Hclient].
  apply Forall_singleton in Hclient as [history Hanswer]. simpl in Hanswer.
  destruct (Hfails history (PostDraft draft)) as (err & Herr & Hretry).
  rewrite <- Hanswer in Herr. rewrite Herr in Hrun.
  exists draft, resp, err. rewrite Hrun.
  rewrite (create_with_draft_issued m r (attempts ++ [(PostDraft draft, resp)]))
    by by eexists.
  split_and!; [|apply last_snoc|by exists history|done..].
  rewrite fmap_app, (retriedPost_calls _ _ Hretried), (Hlast err Herr Hretry).
  by rewrite replicate_S_end.
Qed.

Lemma create_exhausts_window_witness :
  ∃ draft (lastAnswer : Response) err,
    (issued (resourceDiscountCodeCreate (helpers := sampleHelpers)
               (window := sampleWindow) unreachableClient)
       (startRun unchangedData)).*1
    = replicate 3 (PostDraft draft)
    ∧ last (issued (resourceDiscountCodeCreate (helpers := sampleHelpers)
                      (window := sampleWindow) unreachableClient)
              (startRun unchangedData))
      = Some (PostDraft draft, lastAnswer)
    ∧ (∃ history, lastAnswer = unreachableClient history (PostDraft draft))
    ∧ lastAnswer.2 = Some err
    ∧ (resourceDiscountCodeCreate (helpers := sampleHelpers) (window := sampleWindow)
         unreachableClient (startRun unchangedData)).1
      = Diags (FromErr (Err (handleCommercetoolsError (Helpers := sampleHelpers) err)))
    ∧ data (resourceDiscountCodeCreate (helpers := sampleHelpers)
              (window := sampleWindow) unreachableClient (startRun unchangedData)).2
      = data (startRun unchangedData).
Proof.
  apply (create_exhausts_window (helpers := sampleHelpers) (window := sampleWindow)
           unreachableClient (startRun unchangedData)).
  - by left.
  - by left.
  - intros history call. exists (GoError "connection refused"). split; reflexivity.
Defined.

(** X11: when the first answer to the create post is a success or a failure
    that is not retryable, the create handler posts once, whatever the window
    allows.  On a failure it returns the diagnostics of the reported error,
    on a success without a discount code the diagnostics "No discount code
    created"; in both cases no id is set and the resource data are
    untouched. *)
Theorem create_final_first_answer {helpers : Helpers} {window : RetryWindow}
    (m : Client) (r : Run) draft :
  createDraft (data r) r = (Next draft, r) →
  let first := m (calls r) (PostDraft draft) in
  let out := resourceDiscountCodeCreate m r in
  ¬ retriedPost draft (PostDraft draft, first) →
  (∀ discountCode, first ≠ (Some discountCode, None)) →
  issued (resourceDiscountCodeCreate m) r = [(PostDraft draft, first)]
  ∧ data out.2 = data r
  ∧ out.1 = Diags match first.2 with
                  | Some err => FromErr (reported err)
                  | None => Errorf "No discount code created"
                  end.
Proof.
  intros Hdraft first out Hfinal Hnone. subst out.
  pose proof (create_single_post m r draft Hdraft Hfinal) as Hrun. fold first in Hrun.
  destruct first as [[discountCode|] [err|]] eqn:Hfirst; simpl in Hrun;
    try (by destruct (Hnone discountCode));
    (split; [by apply create_with_draft_issued; eexists | by rewrite Hrun]).
Qed.

Lemma create_final_first_answer_witness :
  ∃ draft,
    issued (resourceDiscountCodeCreate (helpers := sampleHelpers)
              (window := sampleWindow) refusingClient) (startRun unchangedData)
    = [(PostDraft draft,
        (None, Some (PlatformError {| StatusCode := 400; Message := "Bad Request" |})))].
Proof.
  destruct (usable_draft (helpers := sampleHelpers) unchangedData
              (startRun unchangedData)) as [draft Hdraft]; [by left..|].
  exists draft.
  apply (create_final_first_answer (helpers := sampleHelpers) (window := sampleWindow)
           refusingClient (startRun unchangedData) draft Hdraft).
  - intros [_ (err & [= <-] & Hretry)]. discriminate Hretry.
  - intros discountCode. discriminate.
Defined.

(** X12: when the first answer to the create post is a discount code, the
    create handler stores its id and version and fetches it by that id; the
    outcome is that of the fetch.  A found discount code overwrites the
    planned fields; a 404 error response or an empty answer clears the id
    again and still gives no diagnostics; any other error is returned, with
    the id and version of the created discount code kept. *)
Theorem create_outcome_follows_final_fetch {helpers : Helpers} {window : RetryWindow}
    (m : Client) (r : Run) draft (discountCode : DiscountCode) :
  createDraft (data r) r = (Next draft, r) →
  m (calls r) (PostDraft draft) = (Some discountCode, None) →
  let post := (PostDraft draft, (Some discountCode, None)) in
  let answer := m (calls r ++ [post]) (GetById (dcID discountCode)) in
  let out := resourceDiscountCodeCreate m r in
  issued (resourceDiscountCodeCreate m) r = [post; (GetById (dcID discountCode), answer)]
  ∧ prior (data out.2) = prior (data r)
  ∧ match answer.2 with
    | Some err =>
        if notFound err
        then out.1 = Diags [] ∧ Id (data out.2) = EmptyString
        else out.1 = Diags (FromErr err)
             ∧ Id (data out.2) = dcID discountCode
             ∧ Get version (data out.2) = dcVersion discountCode
    | None =>
        match answer.1 with
        | None => out.1 = Diags [] ∧ Id (data out.2) = EmptyString
        | Some found =>
            out.1 = Diags []
            ∧ Id (data out.2) = dcID discountCode
            ∧ planned (data out.2) = setFromDiscountCode found (planned (data r))
        end
    end.
Proof.
  intros Hdraft Hfirst post answer out. subst out.
  assert (resourceDiscountCodeCreate m r
          = resourceDiscountCodeRead m (created r [post] discountCode)) as Hrun.
  { pose proof (create_single_post m r draft Hdraft) as Hsingle.
    rewrite Hfirst in Hsingle. apply Hsingle.
    intros [_ (err & [=] & _)]. }
  split.
  { apply issued_app. rewrite Hrun, read_calls. unfold created. simpl.
    by rewrite <- app_assoc. }
  rewrite Hrun, read_run. cbv zeta.
  change (m (calls (created r [post] discountCode))
            (GetById (Id (data (created r [post] discountCode))))) with answer.
  destruct answer as [[found|] [err|]]; simpl;
    try destruct (notFound err); by simpl.
Qed.

Lemma create_outcome_follows_final_fetch_witness :
  (resourceDiscountCodeCreate (helpers := sampleHelpers) (window := sampleWindow)
     forgetfulClient (startRun unchangedData)).1 = Diags []
  ∧ Id (data (resourceDiscountCodeCreate (helpers := sampleHelpers)
                (window := sampleWindow) forgetfulClient (startRun unchangedData)).2)
    = EmptyString.
Proof.
  destruct (usable_draft (helpers := sampleHelpers) unchangedData
              (startRun unchangedData)) as [draft Hdraft]; [by left..|].
  destruct (create_outcome_follows_final_fetch (helpers := sampleHelpers)
              (window := sampleWindow) forgetfulClient (startRun unchangedData)
              draft sampleCode Hdraft eq_refl) as (_ & _ & Houtcome).
  exact Houtcome.
Defined.

(** X13: unless the create handler issued a fetch (all its calls were create
    posts, or it issued none) it does not return empty diagnostics and it
    leaves the resource data untouched: the id is set and success is reported
    only on the paths that go through the read handler. *)
Theorem create_without_fetch_fails {helpers : Helpers} {window : RetryWindow}
    (m : Client) (r : Run) :
  Forall (λ cr, ∃ draft, cr.1 = PostDraft draft)
         (issued (resourceDiscountCodeCreate m) r) →
  data (resourceDiscountCodeCreate m r).2 = data r
  ∧ (resourceDiscountCodeCreate m r).1 ≠ Diags [].
Proof.
  intros Hposts.
  destruct (createDraft_cases (data r) r)
    as [(draft & Hdraft & _) | (err & Hdraft & _)].
  - destruct (create_with_draft m r draft Hdraft)
      as (attempts & resp & _ & _ & _ & _ & _ & Hrun).
    destruct resp as [[discountCode|] [err|]]; simpl in Hrun;
      try (rewrite Hrun; by split).
    exfalso.
    rewrite (issued_app _ r
               ((attempts ++ [(PostDraft draft, (Some discountCode, None))])
                ++ [(GetById (dcID discountCode),
                     m (calls r ++ attempts
                        ++ [(PostDraft draft, (Some discountCode, None))])
                       (GetById (dcID discountCode)))])) in Hposts.
    + apply Forall_app in Hposts as [_ Hfetch].
      apply Forall_singleton in Hfetch as [? [=]].
    + rewrite Hrun, read_calls. unfold created. simpl. by rewrite <- !app_assoc.
  - assert (resourceDiscountCodeCreate m r = (Diags (FromErr err), r)) as ->.
    { unfold resourceDiscountCodeCreate, handler, mbind, M_bind, mret, M_ret. simpl.
      by rewrite Hdraft. }
    by split.
Qed.

Lemma create_without_fetch_fails_witness :
  data (resourceDiscountCodeCreate (helpers := sampleHelpers) (window := sampleWindow)
          refusingClient (startRun unchangedData)).2
  = data (startRun unchangedData)
  ∧ (resourceDiscountCodeCreate (helpers := sampleHelpers) (window := sampleWindow)
       refusingClient (startRun unchangedData)).1 ≠ Diags [].
Proof.
  apply (create_without_fetch_fails (helpers := sampleHelpers) (window := sampleWindow)
           refusingClient (startRun unchangedData)).
  vm_compute. repeat constructor. by eexists.
Defined.

(** The draft that [createDraft] builds, field by field. *)
Lemma createDraft_fields {helpers : Helpers} (d : ResourceData) (r : Run) draft :
  createDraft d r = (Next draft, r) →
  Code draft = Get code d
  ∧ Name draft = Some (unmarshallLocalizedString (Get name d))
  ∧ Description draft = Some (unmarshallLocalizedString (Get description d))
  ∧ ID <$> CartDiscounts draft = Some <$> Get cart_discounts d
  ∧ (Get valid_from d = EmptyString → ValidFrom draft = None)
  ∧ (Get valid_until d = EmptyString → ValidUntil draft = None)
  ∧ (∀ t, 0 < String.length (Get valid_from d) →
          unmarshallTime (Get valid_from d) = inl t → ValidFrom draft = Some t)
  ∧ (∀ t, 0 < String.length (Get valid_until d) →
          unmarshallTime (Get valid_until d) = inl t → ValidUntil draft = Some t).
Proof.
  unfold createDraft, mbind, M_bind, mret, M_ret, return_. simpl.
  assert (ID <$> unmarshallDiscountCodeCartDiscounts d = Some <$> Get cart_discounts d)
    as Hids.
  { rewrite unmarshallDiscountCodeCartDiscounts_map, <- list_fmap_compose. done. }
  destruct (bool_decide (0 < String.length (Get valid_from d))) eqn:HlenFrom;
    [destruct (unmarshallTime (Get valid_from d)) as [validFrom|errFrom] eqn:Hfrom;
     [|done]|];
    (destruct (bool_decide (0 < String.length (Get valid_until d))) eqn:HlenUntil;
     [destruct (unmarshallTime (Get valid_until d)) as [validUntil|errUntil] eqn:Huntil;
      [|done]|]);
    intros [= <-]; simpl;
    try apply bool_decide_eq_true_1 in HlenFrom;
    try apply bool_decide_eq_true_1 in HlenUntil;
    try apply bool_decide_eq_false_1 in HlenFrom;
    try apply bool_decide_eq_false_1 in HlenUntil;
    (split_and!; [done..| | | |]);
    try (intros Hempty; rewrite Hempty in *; simpl in *; first [done | lia]);
    try (intros t Hlen; first [congruence | lia]).
Qed.

(** X14: with usable validity strings the first call of the create handler
    posts a draft made of the planned values: the code as it is, name and
    description always present, the cart discounts as identifiers carrying the
    configured ids in their order; an empty validity string leaves the time
    of the draft unset without [unmarshallTime] being asked, a non-empty one
    sets it to the parsed time. *)
Theorem create_posts_planned_draft {helpers : Helpers} {window : RetryWindow}
    (m : Client) (r : Run) :
  usable (Get valid_from (data r)) → usable (Get valid_until (data r)) →
  ∃ draft,
    issued (resourceDiscountCodeCreate m) r !! 0
    = Some (PostDraft draft, m (calls r) (PostDraft draft))
    ∧ Code draft = Get code (data r)
    ∧ is_Some (Name draft) ∧ is_Some (Description draft)
    ∧ ID <$> CartDiscounts draft = Some <$> Get cart_discounts (data r)
    ∧ (Get valid_from (data r) = EmptyString → ValidFrom draft = None)
    ∧ (Get valid_until (data r) = EmptyString → ValidUntil draft = None)
    ∧ (∀ t, 0 < String.length (Get valid_from (data r)) →
            unmarshallTime (Get valid_from (data r)) = inl t →
            ValidFrom draft = Some t)
    ∧ (∀ t, 0 < String.length (Get valid_until (data r)) →
            unmarshallTime (Get valid_until (data r)) = inl t →
            ValidUntil draft = Some t).
Proof.
  intros Hfrom Huntil.
  destruct (usable_draft (data r) r Hfrom Huntil) as [draft Hdraft].
  destruct (createDraft_fields (data r) r draft Hdraft)
    as (Hcode & Hname & Hdescription & Hids & HnoFrom & HnoUntil & HsetFrom & HsetUntil).
  assert (issued (resourceDiscountCodeCreate m) r !! 0
          = Some (PostDraft draft, m (calls r) (PostDraft draft))) as Hissued.
  { destruct (create_with_draft m r draft Hdraft)
      as (attempts & resp & _ & _ & _ & _ & Hfirst & Hrun).
    assert (∃ after, issued (resourceDiscountCodeCreate m) r
                     = (attempts ++ [(PostDraft draft, resp)]) ++ after) as [after ->].
    { destruct resp as [[discountCode|] [err|]]; simpl in Hrun;
        try (exists []; rewrite app_nil_r; by apply create_with_draft_issued; eexists).
      eexists. apply issued_app. rewrite Hrun, read_calls. unfold created. simpl.
      by rewrite <- !app_assoc. }
    by apply lookup_app_l_Some. }
  exists draft. rewrite Hname, Hdescription. by split_and!.
Qed.

Lemma create_posts_planned_draft_witness :
  ∃ draft,
    issued (resourceDiscountCodeCreate (helpers := sampleHelpers)
              (window := sampleWindow) presentClient) (startRun unchangedData) !! 0
    = Some (PostDraft draft, presentClient [] (PostDraft draft))
    ∧ Code draft = "SUMMER"
    ∧ ID <$> CartDiscounts draft = [Some "cd-1"; Some "cd-2"]
    ∧ ValidFrom draft = None.
Proof.
  destruct (create_posts_planned_draft (helpers := sampleHelpers)
              (window := sampleWindow) presentClient (startRun unchangedData))
    as (draft & Hfirst & Hcode & _ & _ & Hids & HnoFrom & _); [by left..|].
  exists draft. split_and!; [exact Hfirst | exact Hcode | exact Hids | by apply HnoFrom].
Defined.
